(** * UDD: the user-space device driver core of Xenomai/cobalt

    A shallow embedding of [kernel/drivers/udd/udd.c] and the properties of
    its registration, event and mapping paths.

    The C functions become Rocq functions over explicit state.  A call into
    a service that lives outside [udd.c] (RTDM, the cobalt core, the I-pipe,
    the client driver's handlers) is recorded in a chronological trace of
    [kcall] values; what such a service returns is read from an oracle, the
    [kernel] record, so that every outcome the C code can see is covered. *)

From Stdlib Require Import ZArith List Bool String Lia.
Import ListNotations.
Local Open Scope Z_scope.

(** ** Machine integers *)

(** [int] and [atomic_t] are 32-bit two's complement; [u32] is the same
    bit pattern read as unsigned. *)
Definition wrap_int (z : Z) : Z := (z + 2 ^ 31) mod 2 ^ 32 - 2 ^ 31.
Definition to_u32 (z : Z) : Z := z mod 2 ^ 32.

(** [sizeof(u32)], the width of the serialized event count. *)
Definition sizeof_u32 : Z := 4.

(** ** Error numbers (asm-generic/errno-base.h, asm-generic/errno.h) *)

Definition EIO : Z := 5.
Definition ENXIO : Z := 6.
Definition ENOMEM : Z := 12.
Definition EFAULT : Z := 14.
Definition EBUSY : Z := 16.
Definition EINVAL : Z := 22.
Definition ENOSYS : Z := 38.

(** ** Data model *)

(** [struct udd_memregion].  A NULL [name] is [None]. *)
Record udd_memregion := mk_memregion {
  rn_name : option string;
  rn_addr : Z;
  rn_len : Z;
  rn_type : Z
}.

(** [struct udd_signotify]. *)
Record udd_signotify := mk_signotify {
  sn_pid : Z;
  sn_sig : Z
}.

(** [struct vm_area_struct], the two fields [mapper_mmap] reads. *)
Record vm_area := mk_vma {
  vm_start : Z;
  vm_end : Z
}.

(** What [rtdm_safe_copy_from_user] finds behind the [arg] pointer of an
    ioctl: its return code and the bytes it fetched (meaningful when the
    code is 0). *)
Record user_arg := mk_user_arg {
  ua_copy_ret : Z;
  ua_signfy : udd_signotify
}.

(** [udd->ops]: the handlers of the client driver.  A NULL handler is
    [None]; a handler is seen through the code it returns. *)
Record udd_ops := mk_ops {
  ops_open : option (Z -> Z);
  ops_close : bool;
  ops_ioctl : option (Z -> user_arg -> Z);
  ops_mmap : option (vm_area -> Z);
  ops_interrupt : option Z
}.

(** [struct udd_reserved]: the live state owned by the UDD core.  The RTDM
    objects [irqh], [pulse], [mapper] and [device] are opaque to [udd.c];
    they are observed through the calls made on them. *)
Record udd_reserved := mk_reserved {
  ur_nr_maps : Z;
  ur_mapper_name : option string;
  ur_event : Z;
  ur_signfy : udd_signotify
}.

(** [struct udd_device].  [mem_regions] is the array
    [mem_regions[UDD_NR_MAPS]], slot [n] being the [n]-th element. *)
Record udd_device := mk_device {
  device_name : string;
  ops : udd_ops;
  irq : Z;
  mem_regions : list udd_memregion;
  reserved : udd_reserved
}.

(** [struct udd_context], the private area of one open file. *)
Record udd_context := mk_context {
  event_count : Z
}.

Definition set_reserved (udd : udd_device) (ur : udd_reserved) : udd_device :=
  mk_device (device_name udd) (ops udd) (irq udd) (mem_regions udd) ur.

Definition set_nr_maps (ur : udd_reserved) (n : Z) : udd_reserved :=
  mk_reserved n (ur_mapper_name ur) (ur_event ur) (ur_signfy ur).

Definition set_mapper_name (ur : udd_reserved) (s : option string) : udd_reserved :=
  mk_reserved (ur_nr_maps ur) s (ur_event ur) (ur_signfy ur).

Definition set_event (ur : udd_reserved) (e : Z) : udd_reserved :=
  mk_reserved (ur_nr_maps ur) (ur_mapper_name ur) e (ur_signfy ur).

Definition set_signfy (ur : udd_reserved) (s : udd_signotify) : udd_reserved :=
  mk_reserved (ur_nr_maps ur) (ur_mapper_name ur) (ur_event ur) s.

Definition set_signfy_pid (ur : udd_reserved) (p : Z) : udd_reserved :=
  set_signfy ur (mk_signotify p (sn_sig (ur_signfy ur))).

(** ** Services outside [udd.c] *)

(** The two RTDM devices of one UDD device: [&ur->mapper], [&ur->device]. *)
Inductive endpoint := MapperEndpoint | ControlEndpoint.

(** One call leaving [udd.c], with the arguments that identify it. *)
Inductive kcall :=
| c_kasformat (name : string)
| c_rtdm_dev_register (e : endpoint)
| c_rtdm_dev_unregister (e : endpoint) (poll_delay : Z)
| c_rtdm_event_init
| c_rtdm_event_signal
| c_rtdm_event_wait
| c_rtdm_event_destroy
| c_rtdm_irq_request (line : Z)
| c_rtdm_irq_free
| c_kfree (p : option string)
| c_cobalt_sigqueue (pid sig sival : Z)
| c_ipipe_post_work_root (line enabled : Z)
| c_rtdm_copy_to_user (val : Z)
| c_rtdm_mmap_iomem (addr : Z)
| c_rtdm_mmap_kmem (addr : Z)
| c_rtdm_mmap_vmem (addr : Z)
| c_ops_open (oflags : Z)
| c_ops_close
| c_ops_ioctl (request : Z)
| c_ops_mmap
| c_ops_interrupt.

(** What the outside services answer. *)
Record kernel := mk_kernel {
  realtime_core_enabled : bool;
  kasformat_ok : bool;
  rtdm_dev_register : endpoint -> Z;
  rtdm_dev_unregister : endpoint -> Z -> Z;
  rtdm_irq_request : Z -> Z;
  cobalt_thread_find_local : Z -> bool;
  cobalt_sigqueue : Z -> Z -> Z -> Z;
  rtdm_copy_to_user : Z -> Z;
  rtdm_mmap_iomem : vm_area -> Z -> Z;
  rtdm_mmap_kmem : vm_area -> Z -> Z;
  rtdm_mmap_vmem : vm_area -> Z -> Z
}.

(** One return of [rtdm_event_wait] to a sleeping reader: the code it
    returns, and the value [ur->event] has by then (interrupts ran while
    the reader slept). *)
Record wakeup := mk_wakeup {
  wk_ret : Z;
  wk_event : Z
}.

(** A call that may sleep for ever either returned or is still asleep. *)
Inductive blocking (A : Type) :=
| Returned (a : A)
| Blocked (tr : list kcall).
Arguments Returned {A} a.
Arguments Blocked {A} tr.

(** Constants of [rtdm/udd.h], [rtdm/driver.h] and the signal ABI.  The
    headers are not part of [udd.c]: the code is read for any value of the
    constants.  The labels of a C [switch] are pairwise
    distinct (the compiler rejects the file otherwise): the three request
    codes of [udd_ioctl_rt], the three region types of [mapper_mmap]. *)
Class udd_abi := mk_abi {
  UDD_MEM_NONE : Z;
  UDD_MEM_PHYS : Z;
  UDD_MEM_LOGICAL : Z;
  UDD_MEM_VIRTUAL : Z;
  UDD_IRQ_NONE : Z;
  UDD_IRQ_CUSTOM : Z;
  UDD_NR_MAPS : Z;
  UDD_RTIOC_IRQEN : Z;
  UDD_RTIOC_IRQDIS : Z;
  UDD_RTIOC_IRQSIG : Z;
  RTDM_IRQ_HANDLED : Z;
  SIGRTMIN : Z;
  SIGRTMAX : Z;
  BITS_PER_LONG : Z;
  ioctl_labels :
    UDD_RTIOC_IRQSIG <> UDD_RTIOC_IRQEN /\
    UDD_RTIOC_IRQSIG <> UDD_RTIOC_IRQDIS /\
    UDD_RTIOC_IRQEN <> UDD_RTIOC_IRQDIS;
  mmap_labels :
    UDD_MEM_PHYS <> UDD_MEM_LOGICAL /\
    UDD_MEM_PHYS <> UDD_MEM_VIRTUAL /\
    UDD_MEM_LOGICAL <> UDD_MEM_VIRTUAL
}.

Definition is_null {A : Type} (p : option A) : bool :=
  match p with Some _ => false | None => true end.

(** A C condition [if (ret)]. *)
Definition nonzero (z : Z) : bool := negb (z =? 0).

(** [ret ?: n], the GNU conditional with its middle operand left out. *)
Definition elvis (ret n : Z) : Z := if nonzero ret then ret else n.

Section Model.

Context {abi : udd_abi}.
Variable k : kernel.

(** [size_t] arithmetic. *)
Definition to_size_t (z : Z) : Z := z mod 2 ^ BITS_PER_LONG.

(** [kasformat("%s,mapper", name)]: the formatted string, or NULL when the
    allocation fails. *)
Definition kasformat (name : string) : option string :=
  if kasformat_ok k then Some (name ++ ",mapper")%string else None.

(** *** Control endpoint: open and close *)

(** [udd_open(fd, oflags)]. *)
Definition udd_open (udd : udd_device) (ctx : udd_context) (oflags : Z)
  : Z * udd_context * list kcall :=
  match ops_open (ops udd) with
  | Some h =>
      if nonzero (h oflags) then (h oflags, ctx, [c_ops_open oflags])
      else (0, mk_context 0, [c_ops_open oflags])
  | None => (0, mk_context 0, [])
  end.

(** [udd_close(fd)]. *)
Definition udd_close (udd : udd_device) : list kcall :=
  if ops_close (ops udd) then [c_ops_close] else [].

(** *** Deferred line switch *)

(** [switch_irq_line(irq, enable)]: posts one work item to the root
    domain; [lostage_irqswitch_line] runs it there later. *)
Definition switch_irq_line (line enable : Z) : list kcall :=
  [c_ipipe_post_work_root line enable].

Definition udd_post_irq_enable (line : Z) : list kcall := switch_irq_line line 1.
Definition udd_post_irq_disable (line : Z) : list kcall := switch_irq_line line 0.

(** *** Control endpoint: ioctl *)

(** The [switch (request)] of [udd_ioctl_rt] and the [return ret] after
    it; [ret] is the value the variable holds when the switch is entered. *)
Definition ioctl_switch (ret : Z) (udd : udd_device) (request : Z) (arg : user_arg)
  : Z * udd_device * list kcall :=
  let ur := reserved udd in
  if request =? UDD_RTIOC_IRQSIG then
    let ret := ua_copy_ret arg in
    let signfy := ua_signfy arg in
    if nonzero ret then (ret, udd, [])
    else if sn_pid signfy <=? 0
    then (ret, set_reserved udd (set_signfy_pid ur (-1)), [])
    else if (sn_sig signfy <? SIGRTMIN) || (SIGRTMAX <? sn_sig signfy)
    then (- EINVAL, udd, [])
    else if negb (cobalt_thread_find_local k (sn_pid signfy))
    then (- EINVAL, udd, [])
    else (ret, set_reserved udd (set_signfy ur signfy), [])
  else if request =? UDD_RTIOC_IRQEN then
    if irq udd =? UDD_IRQ_NONE then (- EIO, udd, [])
    else (ret, udd, udd_post_irq_enable (irq udd))
  else if request =? UDD_RTIOC_IRQDIS then
    if irq udd =? UDD_IRQ_NONE then (- EIO, udd, [])
    else (ret, udd, udd_post_irq_disable (irq udd))
  else (ret, udd, []).

(** [udd_ioctl_rt(fd, request, arg)].  The device and the private context
    of the file are both reachable from [fd]; both are returned. *)
Definition udd_ioctl_rt (udd : udd_device) (ctx : udd_context)
    (request : Z) (arg : user_arg)
  : Z * udd_device * udd_context * list kcall :=
  match ops_ioctl (ops udd) with
  | Some h =>
      let ret := h request arg in
      if negb (ret =? - ENOSYS) then (ret, udd, ctx, [c_ops_ioctl request])
      else
        let '(ret, udd', tr) := ioctl_switch ret udd request arg in
        (ret, udd', ctx, c_ops_ioctl request :: tr)
  | None =>
      let '(ret, udd', tr) := ioctl_switch 0 udd request arg in
      (ret, udd', ctx, tr)
  end.

(** *** Control endpoint: read and write *)

(** The [for (;;)] loop of [udd_read_rt].  [ev] is the value of
    [ur->event], [ws] the returns of [rtdm_event_wait] still to come.
    The result is [inl ev] when the loop is left through [break] with the
    counter at [ev], [inr ret] when a wait failed. *)
Fixpoint read_wait (ev count : Z) (ws : list wakeup) (tr : list kcall)
  : blocking ((Z + Z) * Z * list kcall) :=
  if negb (to_u32 ev =? count) then Returned (inl ev, ev, tr)
  else
    match ws with
    | [] => Blocked (tr ++ [c_rtdm_event_wait])
    | w :: ws' =>
        if nonzero (wk_ret w)
        then Returned (inr (wk_ret w), wk_event w, tr ++ [c_rtdm_event_wait])
        else read_wait (wk_event w) count ws' (tr ++ [c_rtdm_event_wait])
    end.

(** [udd_read_rt(fd, buf, len)]. *)
Definition udd_read_rt (udd : udd_device) (ctx : udd_context) (len : Z)
    (ws : list wakeup)
  : blocking (Z * udd_device * udd_context * list kcall) :=
  if negb (len =? sizeof_u32) then Returned (- EINVAL, udd, ctx, [])
  else if irq udd =? UDD_IRQ_NONE then Returned (- EIO, udd, ctx, [])
  else
    let ur := reserved udd in
    match read_wait (ur_event ur) (event_count ctx) ws [] with
    | Blocked tr => Blocked tr
    | Returned (inr ret, ev, tr) =>
        Returned (ret, set_reserved udd (set_event ur ev), ctx, tr)
    | Returned (inl _, ev, tr) =>
        let count := to_u32 ev in
        let ctx := mk_context count in
        let ret := rtdm_copy_to_user k count in
        Returned (elvis ret sizeof_u32, set_reserved udd (set_event ur ev),
                  ctx, tr ++ [c_rtdm_copy_to_user count])
    end.

(** A NULL [arg]: copying from it faults. *)
Definition null_arg : user_arg := mk_user_arg (- EFAULT) (mk_signotify 0 0).

(** [udd_write_rt(fd, buf, len)]; [buf] is what
    [rtdm_safe_copy_from_user] returns and the word it fetched. *)
Definition udd_write_rt (udd : udd_device) (ctx : udd_context) (len : Z)
    (buf : Z * Z)
  : Z * udd_device * udd_context * list kcall :=
  if negb (len =? sizeof_u32) then (- EINVAL, udd, ctx, [])
  else if nonzero (fst buf) then (fst buf, udd, ctx, [])
  else
    let request := if nonzero (to_u32 (snd buf)) then UDD_RTIOC_IRQEN
                   else UDD_RTIOC_IRQDIS in
    let '(ret, udd', ctx', tr) := udd_ioctl_rt udd ctx request null_arg in
    (elvis ret len, udd', ctx', tr).

(** *** Interrupt path *)

(** [udd_notify_event(udd)].  What [cobalt_sigqueue] returns is dropped. *)
Definition udd_notify_event (udd : udd_device) : udd_device * list kcall :=
  let ur := reserved udd in
  let ur := set_event ur (wrap_int (ur_event ur + 1)) in
  let tr := [c_rtdm_event_signal] in
  if 0 <? sn_pid (ur_signfy ur) then
    let sival := ur_event ur in
    let _ := cobalt_sigqueue k (sn_pid (ur_signfy ur)) (sn_sig (ur_signfy ur)) sival in
    (set_reserved udd ur,
     tr ++ [c_cobalt_sigqueue (sn_pid (ur_signfy ur)) (sn_sig (ur_signfy ur)) sival])
  else (set_reserved udd ur, tr).

(** [udd_irq_handler(irqh)]; the handler is only ever bound when
    [ops.interrupt] is set, a NULL one is a call through a null pointer. *)
Definition udd_irq_handler (udd : udd_device) : option (Z * udd_device * list kcall) :=
  match ops_interrupt (ops udd) with
  | None => None
  | Some ret =>
      if ret =? RTDM_IRQ_HANDLED then
        let '(udd', tr) := udd_notify_event udd in
        Some (ret, udd', c_ops_interrupt :: tr)
      else Some (ret, udd, [c_ops_interrupt])
  end.

(** *** Mapper endpoint *)

(** [udd->mem_regions + minor]; nothing when [minor] is outside the array. *)
Definition region_at (udd : udd_device) (minor : Z) : option udd_memregion :=
  if minor <? 0 then None else nth_error (mem_regions udd) (Z.to_nat minor).

(** [mapper_open(fd, oflags)] on the file of minor [minor]. *)
Definition mapper_open (udd : udd_device) (minor : Z) : Z :=
  if (minor <? 0) || (UDD_NR_MAPS <=? minor) then - EIO
  else
    match region_at udd minor with
    | Some rn => if rn_type rn =? UDD_MEM_NONE then - EIO else 0
    | None => - EIO
    end.

(** [mapper_mmap(fd, vma)] on the file of minor [minor]; [None] when the
    C code reads outside [mem_regions], which [mapper_open] rules out. *)
Definition mapper_mmap (udd : udd_device) (minor : Z) (vma : vm_area)
  : option (Z * list kcall) :=
  match ops_mmap (ops udd) with
  | Some h => Some (h vma, [c_ops_mmap])
  | None =>
      let len := to_size_t (vm_end vma - vm_start vma) in
      match region_at udd minor with
      | None => None
      | Some rn =>
          if rn_len rn <? len then Some (- EINVAL, [])
          else if rn_type rn =? UDD_MEM_PHYS
          then Some (rtdm_mmap_iomem k vma (rn_addr rn), [c_rtdm_mmap_iomem (rn_addr rn)])
          else if rn_type rn =? UDD_MEM_LOGICAL
          then Some (rtdm_mmap_kmem k vma (rn_addr rn), [c_rtdm_mmap_kmem (rn_addr rn)])
          else if rn_type rn =? UDD_MEM_VIRTUAL
          then Some (rtdm_mmap_vmem k vma (rn_addr rn), [c_rtdm_mmap_vmem (rn_addr rn)])
          else Some (- EINVAL, [])
      end
  end.

(** *** Region table *)

(** [check_memregion(udd, rn)]; the only part of [udd] it touches is
    [__reserved.nr_maps]. *)
Definition check_memregion (ur : udd_reserved) (rn : udd_memregion)
  : Z * udd_reserved :=
  if rn_type rn =? UDD_MEM_NONE then (0, ur)
  else if is_null (rn_name rn) then (- EINVAL, ur)
  else if rn_addr rn =? 0 then (- EINVAL, ur)
  else if rn_len rn =? 0 then (- EINVAL, ur)
  else (0, set_nr_maps ur (ur_nr_maps ur + 1)).

(** The [for] loop of [udd_register_device] from the slot at the head of
    [rns] on. *)
Fixpoint check_memregions (ur : udd_reserved) (rns : list udd_memregion)
  : Z * udd_reserved :=
  match rns with
  | [] => (0, ur)
  | rn :: rest =>
      let '(ret, ur') := check_memregion ur rn in
      if nonzero ret then (ret, ur') else check_memregions ur' rest
  end.

(** *** Registration *)

(** [register_mapper(udd)]. *)
Definition register_mapper (udd : udd_device) (ur : udd_reserved)
  : Z * udd_reserved * list kcall :=
  let name := kasformat (device_name udd) in
  let ur := set_mapper_name ur name in
  if is_null name then (- ENOMEM, ur, [c_kasformat (device_name udd)])
  else (rtdm_dev_register k MapperEndpoint, ur,
        [c_kasformat (device_name udd); c_rtdm_dev_register MapperEndpoint]).

(** The code after the label [fail_irq_request]. *)
Definition fail_irq_request (ret : Z) (udd : udd_device) (tr : list kcall)
  : Z * udd_device * list kcall :=
  (ret, udd,
   tr ++ [c_rtdm_dev_unregister MapperEndpoint 0;
          c_kfree (ur_mapper_name (reserved udd))]).

(** The code after the label [fail_dev_register], which falls through to
    [fail_irq_request]. *)
Definition fail_dev_register (ret : Z) (udd : udd_device) (tr : list kcall)
  : Z * udd_device * list kcall :=
  fail_irq_request ret udd (tr ++ [c_rtdm_irq_free]).

(** [udd->irq != UDD_IRQ_NONE && udd->irq != UDD_IRQ_CUSTOM]. *)
Definition irq_is_line (udd : udd_device) : bool :=
  negb (irq udd =? UDD_IRQ_NONE) && negb (irq udd =? UDD_IRQ_CUSTOM).

(** [udd->irq != UDD_IRQ_NONE && udd->ops.interrupt == NULL]. *)
Definition missing_handler (udd : udd_device) : bool :=
  negb (irq udd =? UDD_IRQ_NONE) && is_null (ops_interrupt (ops udd)).

(** [udd_register_device] from [rtdm_dev_register(&ur->device)] on. *)
Definition register_control (udd : udd_device) (tr : list kcall)
  : Z * udd_device * list kcall :=
  let ret := rtdm_dev_register k ControlEndpoint in
  let tr := tr ++ [c_rtdm_dev_register ControlEndpoint] in
  if nonzero ret then fail_dev_register ret udd tr
  else (0, udd, tr).

(** [udd_register_device] from the interrupt request on. *)
Definition register_irq (udd : udd_device) (tr : list kcall)
  : Z * udd_device * list kcall :=
  if irq_is_line udd then
    let ret := rtdm_irq_request k (irq udd) in
    let tr := tr ++ [c_rtdm_irq_request (irq udd)] in
    if nonzero ret then fail_irq_request ret udd tr
    else register_control udd tr
  else register_control udd tr.

(** [udd_register_device(udd)]: the return code, the device afterwards and
    the calls made. *)
Definition udd_register_device (udd : udd_device)
  : Z * udd_device * list kcall :=
  if negb (realtime_core_enabled k) then (- ENXIO, udd, [])
  else if missing_handler udd then (- EINVAL, udd, [])
  else
    let '(ret, ur) :=
      check_memregions (set_nr_maps (reserved udd) 0) (mem_regions udd) in
    if nonzero ret then (ret, set_reserved udd ur, [])
    else
      let '(ret, ur, tr) :=
        if 0 <? ur_nr_maps ur then register_mapper udd ur
        else (0, set_mapper_name ur None, []) in
      if nonzero ret then (ret, set_reserved udd ur, tr)
      else
        let ur := set_event ur 0 in
        let tr := tr ++ [c_rtdm_event_init] in
        let ur := set_signfy_pid ur (-1) in
        register_irq (set_reserved udd ur) tr.

(** [udd_unregister_device(udd, poll_delay)]. *)
Definition udd_unregister_device (udd : udd_device) (poll_delay : Z)
  : Z * udd_device * list kcall :=
  if negb (realtime_core_enabled k) then (- ENXIO, udd, [])
  else
    (rtdm_dev_unregister k ControlEndpoint poll_delay, udd,
     [c_rtdm_event_destroy]
     ++ (if irq_is_line udd then [c_rtdm_irq_free] else [])
     ++ [c_rtdm_dev_unregister MapperEndpoint poll_delay]
     ++ (if is_null (ur_mapper_name (reserved udd)) then []
         else [c_kfree (ur_mapper_name (reserved udd))])
     ++ [c_rtdm_dev_unregister ControlEndpoint poll_delay]).

(** *** Vocabulary of the statements *)

(** A slot in use: [rn->type != UDD_MEM_NONE]. *)
Definition region_used (rn : udd_memregion) : bool :=
  negb (rn_type rn =? UDD_MEM_NONE).

(** A slot in use that lacks a name, an address or a length. *)
Definition region_invalid (rn : udd_memregion) : bool :=
  region_used rn
  && (is_null (rn_name rn) || (rn_addr rn =? 0) || (rn_len rn =? 0)).

(** The driver's ioctl handler is absent, or answers [-ENOSYS]. *)
Definition ioctl_falls_through (udd : udd_device) (request : Z) (arg : user_arg)
  : bool :=
  match ops_ioctl (ops udd) with
  | Some h => h request arg =? - ENOSYS
  | None => true
  end.

(** The call to the driver's ioctl handler, when there is one. *)
Definition ops_ioctl_call (udd : udd_device) (request : Z) : list kcall :=
  match ops_ioctl (ops udd) with
  | Some _ => [c_ops_ioctl request]
  | None => []
  end.

(** The calls by which the mapper endpoint is stood up when [nr_maps]
    regions are in use, and the name it is left with. *)
Definition mapper_calls (udd : udd_device) (nr_maps : Z) : list kcall :=
  if 0 <? nr_maps
  then [c_kasformat (device_name udd); c_rtdm_dev_register MapperEndpoint]
  else [].

Definition mapper_name_for (udd : udd_device) (nr_maps : Z) : option string :=
  if 0 <? nr_maps then Some (device_name udd ++ ",mapper")%string else None.

(** A wakeup that sends the reader back to sleep: the wait succeeded and
    the counter still equals the count the handle has seen. *)
Definition idle_wakeup (count : Z) (w : wakeup) : Prop :=
  wk_ret w = 0 /\ to_u32 (wk_event w) = count.

Definition is_irq_free (c : kcall) : bool :=
  match c with c_rtdm_irq_free => true | _ => false end.

(** *** Control endpoint: select *)

(** [udd_select(fd, selector, type, index)]; [bound] is what
    [rtdm_event_select] answers when the selector is bound to the pulse. *)
Definition udd_select (udd : udd_device) (bound : Z) : Z :=
  if irq udd =? UDD_IRQ_NONE then - EIO else bound.

(** *** Deferred line switch: the root stage *)

(** [struct irqswitch_work], the work header apart. *)
Record irqswitch_work := mk_irqswitch {
  sw_irq : Z;
  sw_enabled : Z
}.

(** What runs in the root domain. *)
Inductive root_call :=
| r_ipipe_enable_irq (line : Z)
| r_ipipe_disable_irq (line : Z).

(** [lostage_irqswitch_line(work)]. *)
Definition lostage_irqswitch_line (rq : irqswitch_work) : root_call :=
  if nonzero (sw_enabled rq) then r_ipipe_enable_irq (sw_irq rq)
  else r_ipipe_disable_irq (sw_irq rq).

(** The work items a trace has posted with [ipipe_post_work_root], as
    [switch_irq_line] fills them in. *)
Fixpoint posted_work (tr : list kcall) : list irqswitch_work :=
  match tr with
  | [] => []
  | c_ipipe_post_work_root line enabled :: tr' =>
      mk_irqswitch line enabled :: posted_work tr'
  | _ :: tr' => posted_work tr'
  end.

(** The handler of every posted item, run once. *)
Definition root_stage (tr : list kcall) : list root_call :=
  map lostage_irqswitch_line (posted_work tr).

(** *** Interrupts in a row *)

(** [n] calls of [udd_notify_event], one after the other. *)
Fixpoint notify_events (n : nat) (udd : udd_device) : udd_device * list kcall :=
  match n with
  | O => (udd, [])
  | S n' =>
      let '(udd1, tr1) := udd_notify_event udd in
      let '(udd2, tr2) := notify_events n' udd1 in
      (udd2, tr1 ++ tr2)
  end.

(** The interrupt request of a device with a concrete line. *)
Definition irq_calls (udd : udd_device) : list kcall :=
  if irq_is_line udd then [c_rtdm_irq_request (irq udd)] else [].

(** The number of slots in use. *)
Definition used_regions (rns : list udd_memregion) : Z :=
  Z.of_nat (List.length (filter region_used rns)).

(** The state registration leaves the core's area in when it has come
    past the mapper: regions counted, mapper named, event bridge reset. *)
Definition reserved_registered (udd : udd_device) : udd_reserved :=
  mk_reserved (used_regions (mem_regions udd))
    (mapper_name_for udd (used_regions (mem_regions udd)))
    0
    (mk_signotify (-1) (sn_sig (ur_signfy (reserved udd)))).

End Model.

Definition set_irq (udd : udd_device) (line : Z) : udd_device :=
  mk_device (device_name udd) (ops udd) line (mem_regions udd) (reserved udd).

(** ** Sample data *)

(** One assignment of the constants. *)
Definition sample_abi : udd_abi :=
  mk_abi 0 1 2 3 0 (-1) 5 2304 2305 1074268418 1 32 64 64
    ltac:(repeat split; discriminate)
    ltac:(repeat split; discriminate).

(** A kernel in which the core runs and every service succeeds. *)
Definition kernel_ok : kernel :=
  mk_kernel true true (fun _ => 0) (fun _ _ => 0) (fun _ => 0)
    (fun _ => true) (fun _ _ _ => 0) (fun _ => 0)
    (fun _ _ => 0) (fun _ _ => 0) (fun _ _ => 0).

(** The same with the real-time core disabled. *)
Definition kernel_core_off : kernel :=
  mk_kernel false true (fun _ => 0) (fun _ _ => 0) (fun _ => 0)
    (fun _ => true) (fun _ _ _ => 0) (fun _ => 0)
    (fun _ _ => 0) (fun _ _ => 0) (fun _ _ => 0).

(** The control endpoint cannot be registered. *)
Definition kernel_control_busy : kernel :=
  mk_kernel true true
    (fun e => match e with ControlEndpoint => - EBUSY | MapperEndpoint => 0 end)
    (fun _ _ => 0) (fun _ => 0)
    (fun _ => true) (fun _ _ _ => 0) (fun _ => 0)
    (fun _ _ => 0) (fun _ _ => 0) (fun _ _ => 0).

(** The interrupt line cannot be requested. *)
Definition kernel_irq_busy : kernel :=
  mk_kernel true true (fun _ => 0) (fun _ _ => 0) (fun _ => - EBUSY)
    (fun _ => true) (fun _ _ _ => 0) (fun _ => 0)
    (fun _ _ => 0) (fun _ _ => 0) (fun _ _ => 0).

(** No thread has the requested pid, and signals cannot be queued. *)
Definition kernel_no_thread : kernel :=
  mk_kernel true true (fun _ => 0) (fun _ _ => 0) (fun _ => 0)
    (fun _ => false) (fun _ _ _ => - 3) (fun _ => 0)
    (fun _ _ => 0) (fun _ _ => 0) (fun _ _ => 0).

Definition region_none : udd_memregion := mk_memregion None 0 0 0.
Definition region_regs : udd_memregion := mk_memregion (Some "regs"%string) 4096 4096 1.
Definition region_ram : udd_memregion := mk_memregion (Some "ram"%string) 65536 8192 2.
Definition region_empty : udd_memregion := mk_memregion (Some "bad"%string) 8192 0 1.

Definition reserved_fresh : udd_reserved := mk_reserved 0 None 0 (mk_signotify 0 0).

(** Handlers: none but the interrupt handler; none at all; an ioctl handler
    that knows no request; an mmap handler that always succeeds. *)
Definition ops_irq_only : udd_ops := mk_ops None false None None (Some 1).
Definition ops_none : udd_ops := mk_ops None false None None None.
Definition ops_ioctl_enosys : udd_ops :=
  mk_ops None false (Some (fun _ _ => - ENOSYS)) None (Some 1).
Definition ops_ioctl_own : udd_ops :=
  mk_ops None false (Some (fun _ _ => 7)) None (Some 1).
Definition ops_mmap_own : udd_ops :=
  mk_ops None false None (Some (fun _ => 0)) (Some 1).

(** A device on line 7 with one region of device memory in slot 0. *)
Definition dev_line : udd_device :=
  mk_device "foo" ops_irq_only 7
    [region_regs; region_none; region_none; region_none; region_none]
    reserved_fresh.

(** A device on line 7 without any region. *)
Definition dev_line_nomem : udd_device :=
  mk_device "foo" ops_irq_only 7
    [region_none; region_none; region_none; region_none; region_none]
    reserved_fresh.

(** A device without interrupt line and without region. *)
Definition dev_noirq : udd_device :=
  mk_device "foo" ops_none 0
    [region_none; region_none; region_none; region_none; region_none]
    reserved_fresh.

(** A device whose driver handles its interrupt line by itself. *)
Definition dev_custom : udd_device :=
  mk_device "foo" ops_irq_only (-1)
    [region_regs; region_none; region_none; region_none; region_none]
    (mk_reserved 1 (Some "foo,mapper"%string) 3 (mk_signotify (-1) 0)).

(** A device on line 7 that declares no interrupt handler. *)
Definition dev_nohandler : udd_device :=
  mk_device "foo" ops_none 7
    [region_regs; region_none; region_none; region_none; region_none]
    reserved_fresh.

(** A device whose slot 2 has no length; slots 0 and 1 are sound. *)
Definition dev_badregion : udd_device :=
  mk_device "foo" ops_irq_only 7
    [region_regs; region_ram; region_empty; region_none; region_none]
    (mk_reserved 9 None 41 (mk_signotify 12 34)).

(** [dev_line] once registered, with the event count at 3. *)
Definition dev_live : udd_device :=
  mk_device "foo" ops_irq_only 7
    [region_regs; region_none; region_none; region_none; region_none]
    (mk_reserved 1 (Some "foo,mapper"%string) 3 (mk_signotify (-1) 0)).

(** [dev_line] with the notification target (12, 34) stored. *)
Definition dev_target : udd_device :=
  set_reserved dev_line (mk_reserved 1 None 41 (mk_signotify 12 34)).

(** The mapper's name cannot be allocated. *)
Definition kernel_nomem : kernel :=
  mk_kernel true false (fun _ => 0) (fun _ _ => 0) (fun _ => 0)
    (fun _ => true) (fun _ _ _ => 0) (fun _ => 0)
    (fun _ _ => 0) (fun _ _ => 0) (fun _ _ => 0).

(** The mapper endpoint cannot be registered. *)
Definition kernel_mapper_busy : kernel :=
  mk_kernel true true
    (fun e => match e with MapperEndpoint => - EBUSY | ControlEndpoint => 0 end)
    (fun _ _ => 0) (fun _ => 0)
    (fun _ => true) (fun _ _ _ => 0) (fun _ => 0)
    (fun _ _ => 0) (fun _ _ => 0) (fun _ _ => 0).

(** [dev_line] as a registration that succeeds leaves it. *)
Definition dev_registered : udd_device :=
  mk_device "foo" ops_irq_only 7
    [region_regs; region_none; region_none; region_none; region_none]
    (mk_reserved 1 (Some "foo,mapper"%string) 0 (mk_signotify (-1) 0)).

(** A slot with everything but a known type, and a device that has it in
    slot 1. *)
Definition region_odd : udd_memregion := mk_memregion (Some "odd"%string) 4096 4096 9.

Definition dev_odd : udd_device :=
  mk_device "foo" ops_irq_only 7
    [region_regs; region_odd; region_none; region_none; region_none]
    reserved_fresh.

(** [dev_live] with a driver that maps its regions by itself. *)
Definition dev_mmap_own : udd_device :=
  mk_device "foo" ops_mmap_own 7
    [region_regs; region_none; region_none; region_none; region_none]
    (mk_reserved 1 (Some "foo,mapper"%string) 3 (mk_signotify (-1) 0)).

(** ** Properties *)

Section Properties.

Context {abi : udd_abi}.
Variable k : kernel.

(** *** Helpers *)

Lemma nonzero_true (z : Z) : nonzero z = true <-> z <> 0.
Proof.
  unfold nonzero. rewrite negb_true_iff. apply Z.eqb_neq.
Qed.

Lemma nonzero_false (z : Z) : nonzero z = false <-> z = 0.
Proof.
  unfold nonzero. rewrite negb_false_iff. apply Z.eqb_eq.
Qed.

Lemma set_nr_maps_twice (ur : udd_reserved) (a b : Z) :
  set_nr_maps (set_nr_maps ur a) b = set_nr_maps ur b.
Proof. reflexivity. Qed.

Lemma set_nr_maps_same (ur : udd_reserved) :
  set_nr_maps ur (ur_nr_maps ur) = ur.
Proof. destruct ur; reflexivity. Qed.

(** A slot that is not invalid passes [check_memregion], and is counted
    when in use. *)
Lemma check_memregion_valid (ur : udd_reserved) (rn : udd_memregion) :
  region_invalid rn = false ->
  check_memregion ur rn =
    (0, if region_used rn then set_nr_maps ur (ur_nr_maps ur + 1) else ur).
Proof.
  unfold region_invalid, region_used, check_memregion.
  destruct (rn_type rn =? UDD_MEM_NONE); cbn [negb andb]; [reflexivity|].
  intros H. apply orb_false_elim in H as [H Hl].
  apply orb_false_elim in H as [Hn Ha].
  now rewrite Hn, Ha, Hl.
Qed.

(** An invalid slot fails it with [-EINVAL] and leaves the count alone. *)
Lemma check_memregion_invalid (ur : udd_reserved) (rn : udd_memregion) :
  region_invalid rn = true ->
  check_memregion ur rn = (- EINVAL, ur).
Proof.
  unfold region_invalid, region_used, check_memregion.
  destruct (rn_type rn =? UDD_MEM_NONE); cbn [negb andb]; [discriminate|].
  destruct (is_null (rn_name rn)); [reflexivity|].
  destruct (rn_addr rn =? 0); [reflexivity|].
  destruct (rn_len rn =? 0); [reflexivity|discriminate].
Qed.

(** The loop stops at the first invalid slot, having counted the slots in
    use before it. *)
Lemma check_memregions_stops (pre : list udd_memregion) :
  forall (ur : udd_reserved) (rn : udd_memregion) (post : list udd_memregion),
  forallb (fun r => negb (region_invalid r)) pre = true ->
  region_invalid rn = true ->
  check_memregions ur (pre ++ rn :: post) =
    (- EINVAL,
     set_nr_maps ur (ur_nr_maps ur + Z.of_nat (List.length (filter region_used pre)))).
Proof.
  induction pre as [|r pre IH]; intros ur rn post Hpre Hrn.
  - cbn [app check_memregions filter List.length Z.of_nat].
    rewrite (check_memregion_invalid ur rn Hrn).
    rewrite Z.add_0_r, set_nr_maps_same. reflexivity.
  - cbn [forallb] in Hpre. apply andb_true_iff in Hpre as [Hr Hpre].
    apply negb_true_iff in Hr.
    cbn [app check_memregions filter].
    rewrite (check_memregion_valid ur r Hr).
    cbn [nonzero Z.eqb negb].
    rewrite (IH _ rn post Hpre Hrn).
    destruct (region_used r); cbn [List.length]; [|reflexivity].
    unfold set_nr_maps. cbn [ur_nr_maps ur_mapper_name ur_event ur_signfy].
    f_equal. f_equal. lia.
Qed.

(** The loop runs to the end of an array without invalid slot. *)
Lemma check_memregions_valid (rns : list udd_memregion) :
  forall ur : udd_reserved,
  forallb (fun r => negb (region_invalid r)) rns = true ->
  check_memregions ur rns =
    (0, set_nr_maps ur (ur_nr_maps ur + Z.of_nat (List.length (filter region_used rns)))).
Proof.
  induction rns as [|r rns IH]; intros ur Hall.
  - cbn [check_memregions filter List.length Z.of_nat].
    now rewrite Z.add_0_r, set_nr_maps_same.
  - cbn [forallb] in Hall. apply andb_true_iff in Hall as [Hr Hall].
    apply negb_true_iff in Hr.
    cbn [check_memregions filter].
    rewrite (check_memregion_valid ur r Hr).
    cbn [nonzero Z.eqb negb].
    rewrite (IH _ Hall).
    destruct (region_used r); cbn [List.length]; [|reflexivity].
    unfold set_nr_maps. cbn [ur_nr_maps ur_mapper_name ur_event ur_signfy].
    f_equal. f_equal. lia.
Qed.

(** *** Registration: early rejections *)

(** C7: [udd_register_device] returns [-ENXIO] when the real-time core is
    disabled; with the core enabled it returns [-EINVAL] when an interrupt
    line is declared without an interrupt handler.  In both cases the device
    is left as it was (the region loop, which starts by resetting [nr_maps],
    has not run) and no outside service has been called. *)
Theorem register_rejects_before_validation (udd : udd_device) :
  (realtime_core_enabled k = false ->
   udd_register_device k udd = (- ENXIO, udd, []))
  /\
  (realtime_core_enabled k = true ->
   irq udd <> UDD_IRQ_NONE ->
   ops_interrupt (ops udd) = None ->
   udd_register_device k udd = (- EINVAL, udd, [])).
Proof.
  unfold udd_register_device, missing_handler. split.
  - intros ->. reflexivity.
  - intros -> Hirq ->. apply Z.eqb_neq in Hirq. rewrite Hirq. reflexivity.
Qed.

(** C2: with the core enabled, a device whose region array holds an invalid
    slot (in use, with no name, a zero address or a zero length) is refused
    with [-EINVAL]; the loop stopped at the first such slot, [nr_maps]
    counting the slots in use before it; nothing else of the device has
    changed and no outside service has been called: no mapper, no event
    initialisation, no interrupt request, no control endpoint. *)
Theorem register_invalid_region
    (udd : udd_device) (pre : list udd_memregion) (rn : udd_memregion)
    (post : list udd_memregion) :
  realtime_core_enabled k = true ->
  mem_regions udd = pre ++ rn :: post ->
  forallb (fun r => negb (region_invalid r)) pre = true ->
  region_invalid rn = true ->
  udd_register_device k udd =
    (- EINVAL,
     if missing_handler udd then udd
     else set_reserved udd
            (set_nr_maps (reserved udd)
               (Z.of_nat (List.length (filter region_used pre)))),
     []).
Proof.
  intros Hcore Hmem Hpre Hrn.
  unfold udd_register_device. rewrite Hcore. cbn [negb].
  destruct (missing_handler udd); [reflexivity|].
  rewrite Hmem, (check_memregions_stops pre _ rn post Hpre Hrn).
  reflexivity.
Qed.

(** *** Unregistration *)

(** C9: with the real-time core disabled, [udd_unregister_device] returns
    [-ENXIO] at once: the device is untouched and no teardown call is made
    (no event destruction, no interrupt release, no unregistration of
    either endpoint), whatever the device, a registered one included. *)
Theorem unregister_core_disabled (udd : udd_device) (poll_delay : Z) :
  realtime_core_enabled k = false ->
  udd_unregister_device k udd poll_delay = (- ENXIO, udd, []).
Proof.
  intros Hcore. unfold udd_unregister_device. now rewrite Hcore.
Qed.

(** *** Registration: rollback *)

(** Once the checks have passed and the mapper endpoint, if any region is
    in use, has been stood up, registration goes on with the event bridge
    reset and the interrupt request. *)
Lemma register_reaches_irq (udd : udd_device) (ur : udd_reserved) :
  realtime_core_enabled k = true ->
  missing_handler udd = false ->
  check_memregions (set_nr_maps (reserved udd) 0) (mem_regions udd) = (0, ur) ->
  (0 < ur_nr_maps ur ->
   kasformat_ok k = true /\ rtdm_dev_register k MapperEndpoint = 0) ->
  udd_register_device k udd =
    register_irq k
      (set_reserved udd
         (set_signfy_pid
            (set_event
               (set_mapper_name ur (mapper_name_for udd (ur_nr_maps ur))) 0)
            (-1)))
      (mapper_calls udd (ur_nr_maps ur) ++ [c_rtdm_event_init]).
Proof.
  intros Hcore Hh Hchk Hmap.
  unfold udd_register_device, mapper_calls, mapper_name_for.
  rewrite Hcore, Hh, Hchk. cbn [negb nonzero Z.eqb].
  destruct (0 <? ur_nr_maps ur) eqn:Hn.
  - apply Z.ltb_lt in Hn. destruct (Hmap Hn) as [Hk Hr].
    unfold register_mapper, kasformat. rewrite Hk, Hr. reflexivity.
  - reflexivity.
Qed.

(** C1 (amended): when registration has come as far as the interrupt
    request, a failure from there on is returned to the caller after a
    rollback in reverse order of acquisition.  If binding a concrete line
    fails, the mapper endpoint is unregistered and its name freed, and the
    interrupt is not released.  If the control endpoint cannot be
    registered on a device with a concrete line, the line is released
    first, then the mapper endpoint is unregistered and its name freed.  On
    a device without concrete line the same failure is followed, as far as
    the mapper is concerned, by the same two calls.  The unregistration of
    the mapper endpoint is issued whether or not a mapper was created. *)
Theorem register_rollback (udd : udd_device) (ur : udd_reserved) (r : Z) :
  realtime_core_enabled k = true ->
  missing_handler udd = false ->
  check_memregions (set_nr_maps (reserved udd) 0) (mem_regions udd) = (0, ur) ->
  (0 < ur_nr_maps ur ->
   kasformat_ok k = true /\ rtdm_dev_register k MapperEndpoint = 0) ->
  r <> 0 ->
  let udd' :=
    set_reserved udd
      (set_signfy_pid
         (set_event
            (set_mapper_name ur (mapper_name_for udd (ur_nr_maps ur))) 0)
         (-1)) in
  let acquired := mapper_calls udd (ur_nr_maps ur) ++ [c_rtdm_event_init] in
  let undo_mapper :=
    [c_rtdm_dev_unregister MapperEndpoint 0;
     c_kfree (mapper_name_for udd (ur_nr_maps ur))] in
  (irq_is_line udd = true ->
   rtdm_irq_request k (irq udd) = r ->
   udd_register_device k udd =
     (r, udd', acquired ++ [c_rtdm_irq_request (irq udd)] ++ undo_mapper))
  /\
  (irq_is_line udd = true ->
   rtdm_irq_request k (irq udd) = 0 ->
   rtdm_dev_register k ControlEndpoint = r ->
   udd_register_device k udd =
     (r, udd',
      acquired
      ++ [c_rtdm_irq_request (irq udd); c_rtdm_dev_register ControlEndpoint]
      ++ [c_rtdm_irq_free] ++ undo_mapper))
  /\
  (irq_is_line udd = false ->
   rtdm_dev_register k ControlEndpoint = r ->
   exists tr,
     udd_register_device k udd = (r, udd', tr) /\
     filter (fun c => negb (is_irq_free c)) tr =
       acquired ++ [c_rtdm_dev_register ControlEndpoint] ++ undo_mapper).
Proof.
  intros Hcore Hh Hchk Hmap Hr udd' acquired undo_mapper.
  rewrite (register_reaches_irq udd ur Hcore Hh Hchk Hmap).
  fold udd' acquired.
  apply nonzero_true in Hr.
  assert (Hline : irq_is_line udd' = irq_is_line udd) by reflexivity.
  assert (Hirq : irq udd' = irq udd) by reflexivity.
  assert (Hname : ur_mapper_name (reserved udd')
                  = mapper_name_for udd (ur_nr_maps ur)) by reflexivity.
  unfold register_irq, register_control, fail_dev_register, fail_irq_request.
  rewrite Hline, ?Hirq, Hname.
  repeat split.
  - intros -> ->. rewrite Hr. now rewrite <- !app_assoc.
  - intros -> H0 ->. rewrite H0, Hr. cbn [nonzero Z.eqb negb].
    now rewrite <- !app_assoc.
  - intros -> ->. rewrite Hr. eexists. split; [reflexivity|].
    rewrite !filter_app. unfold acquired, mapper_calls.
    destruct (0 <? ur_nr_maps ur); reflexivity.
Qed.

(** *** Event bridge *)

(** In range, the 32-bit increment is the mathematical one. *)
Lemma wrap_int_succ (e : Z) :
  - 2 ^ 31 <= e < 2 ^ 31 - 1 -> wrap_int (e + 1) = e + 1.
Proof.
  intros H. unfold wrap_int.
  rewrite Z.mod_small; lia.
Qed.

(** Read as [u32], the wrapped sum is the sum modulo 2^32. *)
Lemma to_u32_wrap_int (z : Z) : to_u32 (wrap_int z) = to_u32 z.
Proof.
  unfold to_u32, wrap_int.
  rewrite Zminus_mod, Zmod_mod, <- Zminus_mod.
  f_equal. lia.
Qed.

(** C3: [udd_notify_event] adds one to the event count (in 32-bit
    arithmetic: by exactly one short of [INT_MAX], and by one modulo 2^32
    in the [u32] the readers compare), signals the pulse, and then queues a
    signal to the stored pid with the new count as payload exactly when
    that pid is positive.  The value [cobalt_sigqueue] returns does not
    reach the result: the function behaves alike in every kernel. *)
Theorem notify_event_spec (udd : udd_device) :
  let ur := reserved udd in
  let count := wrap_int (ur_event ur + 1) in
  udd_notify_event k udd =
    (set_reserved udd (set_event ur count),
     c_rtdm_event_signal ::
     (if 0 <? sn_pid (ur_signfy ur)
      then [c_cobalt_sigqueue (sn_pid (ur_signfy ur)) (sn_sig (ur_signfy ur)) count]
      else []))
  /\ (- 2 ^ 31 <= ur_event ur < 2 ^ 31 - 1 -> count = ur_event ur + 1)
  /\ to_u32 count = (to_u32 (ur_event ur) + 1) mod 2 ^ 32
  /\ (forall k' : kernel, udd_notify_event k' udd = udd_notify_event k udd).
Proof.
  intros ur count. split; [|split; [|split]].
  - unfold udd_notify_event. fold ur. fold count.
    cbn [ur_signfy set_event ur_event].
    destruct (0 <? sn_pid (ur_signfy ur)); reflexivity.
  - apply wrap_int_succ.
  - unfold count. rewrite to_u32_wrap_int. unfold to_u32.
    now rewrite Zplus_mod_idemp_l.
  - intros k'. unfold udd_notify_event. reflexivity.
Qed.

(** *** Control endpoint: ioctl *)

(** The driver's handler comes first; what it leaves to the core goes
    through the switch. *)
Lemma ioctl_through (udd : udd_device) (ctx : udd_context)
    (request : Z) (arg : user_arg) :
  ioctl_falls_through udd request arg = true ->
  udd_ioctl_rt k udd ctx request arg =
    (let '(ret, udd', tr) :=
       ioctl_switch k
         (if is_null (ops_ioctl (ops udd)) then 0 else - ENOSYS)
         udd request arg in
     (ret, udd', ctx, ops_ioctl_call udd request ++ tr)).
Proof.
  unfold ioctl_falls_through, udd_ioctl_rt, ops_ioctl_call.
  destruct (ops_ioctl (ops udd)) as [h|]; cbn [is_null].
  - intros H. rewrite H. cbn [negb]. apply Z.eqb_eq in H. rewrite H.
    destruct (ioctl_switch k (- ENOSYS) udd request arg) as [[ret udd'] tr].
    reflexivity.
  - intros _.
    destruct (ioctl_switch k 0 udd request arg) as [[ret udd'] tr].
    reflexivity.
Qed.

(** C6: the notification-target ioctl, once the request has reached the
    core (no driver handler, or one answering [-ENOSYS]) and the argument
    has been copied in.  With [pid <= 0] it returns 0 and stores pid -1, so
    that no signal is sent from then on, whatever the signal number.  With
    [pid > 0] it returns [-EINVAL] and leaves the device as it was when the
    signal number is outside [SIGRTMIN..SIGRTMAX] or no local thread has
    that pid; otherwise it returns 0 and stores the pair. *)
Theorem ioctl_irqsig_spec (udd : udd_device) (ctx : udd_context) (arg : user_arg) :
  ioctl_falls_through udd UDD_RTIOC_IRQSIG arg = true ->
  ua_copy_ret arg = 0 ->
  let pid := sn_pid (ua_signfy arg) in
  let sig := sn_sig (ua_signfy arg) in
  let tr := ops_ioctl_call udd UDD_RTIOC_IRQSIG in
  let off := set_reserved udd (set_signfy_pid (reserved udd) (-1)) in
  (pid <= 0 ->
   udd_ioctl_rt k udd ctx UDD_RTIOC_IRQSIG arg = (0, off, ctx, tr) /\
   snd (udd_notify_event k off) = [c_rtdm_event_signal])
  /\
  (0 < pid ->
   sig < SIGRTMIN \/ SIGRTMAX < sig \/ cobalt_thread_find_local k pid = false ->
   udd_ioctl_rt k udd ctx UDD_RTIOC_IRQSIG arg = (- EINVAL, udd, ctx, tr))
  /\
  (0 < pid ->
   SIGRTMIN <= sig <= SIGRTMAX ->
   cobalt_thread_find_local k pid = true ->
   udd_ioctl_rt k udd ctx UDD_RTIOC_IRQSIG arg =
     (0, set_reserved udd (set_signfy (reserved udd) (ua_signfy arg)), ctx, tr)).
Proof.
  intros Hft Hcopy pid sig tr off.
  rewrite (ioctl_through udd ctx _ arg Hft).
  unfold ioctl_switch. rewrite Z.eqb_refl, Hcopy.
  cbn [nonzero Z.eqb negb]. fold pid sig tr.
  split; [|split].
  - intros Hpid. apply Z.leb_le in Hpid. rewrite Hpid.
    rewrite app_nil_r. split; reflexivity.
  - intros Hpid Hbad.
    assert (Hp : (pid <=? 0) = false) by (apply Z.leb_gt; lia).
    rewrite Hp.
    destruct (sig <? SIGRTMIN) eqn:H1; cbn [orb].
    { now rewrite app_nil_r. }
    destruct (SIGRTMAX <? sig) eqn:H2.
    { now rewrite app_nil_r. }
    apply Z.ltb_ge in H1, H2.
    destruct Hbad as [Hbad|[Hbad|Hbad]]; try lia.
    rewrite Hbad. cbn [negb]. now rewrite app_nil_r.
  - intros Hpid [Hlo Hhi] Hth.
    assert (Hp : (pid <=? 0) = false) by (apply Z.leb_gt; lia).
    rewrite Hp.
    assert (H1 : (sig <? SIGRTMIN) = false) by (apply Z.ltb_ge; lia).
    assert (H2 : (SIGRTMAX <? sig) = false) by (apply Z.ltb_ge; lia).
    rewrite H1, H2, Hth. cbn [orb negb]. now rewrite app_nil_r.
Qed.

(** C10: without a driver ioctl handler, a request that is none of the
    three built-in ones returns 0; the device (event count and notification
    target included) and the file's context are unchanged, and no outside
    service is called. *)
Theorem ioctl_unknown_request
    (udd : udd_device) (ctx : udd_context) (request : Z) (arg : user_arg) :
  ops_ioctl (ops udd) = None ->
  request <> UDD_RTIOC_IRQSIG ->
  request <> UDD_RTIOC_IRQEN ->
  request <> UDD_RTIOC_IRQDIS ->
  udd_ioctl_rt k udd ctx request arg = (0, udd, ctx, []).
Proof.
  intros Hops Hs He Hd.
  unfold udd_ioctl_rt, ioctl_switch. rewrite Hops.
  apply Z.eqb_neq in Hs, He, Hd. now rewrite Hs, He, Hd.
Qed.

(** C5 (amended): the driver's ioctl handler, when present, is called
    first, and any answer but [-ENOSYS] is final: the core does nothing
    more.  When the request reaches the core, enable-line and disable-line
    return [-EIO] without posting anything if the line is [UDD_IRQ_NONE],
    and post the switch of the line to the root domain if it is a concrete
    one; the notification-target request does not look at the line at
    all. *)
Theorem ioctl_dispatch
    (udd : udd_device) (ctx : udd_context) (request : Z) (arg : user_arg) :
  (forall h, ops_ioctl (ops udd) = Some h ->
     h request arg <> - ENOSYS ->
     udd_ioctl_rt k udd ctx request arg =
       (h request arg, udd, ctx, [c_ops_ioctl request]))
  /\
  (ioctl_falls_through udd request arg = true ->
   request = UDD_RTIOC_IRQEN \/ request = UDD_RTIOC_IRQDIS ->
   (irq udd = UDD_IRQ_NONE ->
    udd_ioctl_rt k udd ctx request arg =
      (- EIO, udd, ctx, ops_ioctl_call udd request))
   /\
   (irq_is_line udd = true ->
    exists ret,
      udd_ioctl_rt k udd ctx request arg =
        (ret, udd, ctx,
         ops_ioctl_call udd request
         ++ [c_ipipe_post_work_root (irq udd)
               (if request =? UDD_RTIOC_IRQEN then 1 else 0)])
      /\ (ops_ioctl (ops udd) = None -> ret = 0)))
  /\
  (request = UDD_RTIOC_IRQSIG ->
   forall line : Z,
     udd_ioctl_rt k (set_irq udd line) ctx request arg =
       (let '(ret, udd', ctx', tr) := udd_ioctl_rt k udd ctx request arg in
        (ret, set_irq udd' line, ctx', tr))).
Proof.
  destruct ioctl_labels as (Hse & Hsd & Hed).
  split; [|split].
  - intros h Hops Hret. unfold udd_ioctl_rt. rewrite Hops.
    apply Z.eqb_neq in Hret. now rewrite Hret.
  - intros Hft Hreq.
    rewrite (ioctl_through udd ctx request arg Hft).
    unfold ioctl_switch, udd_post_irq_enable, udd_post_irq_disable,
      switch_irq_line.
    assert (Hs : (request =? UDD_RTIOC_IRQSIG) = false)
      by (apply Z.eqb_neq; destruct Hreq; congruence).
    rewrite Hs.
    split.
    + intros Hnone. apply Z.eqb_eq in Hnone. rewrite Hnone.
      destruct Hreq as [-> | ->].
      * rewrite Z.eqb_refl. now rewrite app_nil_r.
      * assert (Hd : (UDD_RTIOC_IRQDIS =? UDD_RTIOC_IRQEN) = false)
          by (apply Z.eqb_neq; congruence).
        rewrite Hd, Z.eqb_refl. now rewrite app_nil_r.
    + intros Hline. unfold irq_is_line in Hline.
      apply andb_true_iff in Hline as [Hline _].
      apply negb_true_iff in Hline. rewrite Hline.
      exists (if is_null (ops_ioctl (ops udd)) then 0 else - ENOSYS).
      destruct Hreq as [-> | ->].
      * rewrite Z.eqb_refl. split; [reflexivity|]. now intros ->.
      * assert (Hd : (UDD_RTIOC_IRQDIS =? UDD_RTIOC_IRQEN) = false)
          by (apply Z.eqb_neq; congruence).
        rewrite Hd, Z.eqb_refl. split; [reflexivity|]. now intros ->.
  - intros -> line. unfold udd_ioctl_rt, ioctl_switch.
    rewrite Z.eqb_refl. cbn [ops set_irq reserved].
    destruct (ops_ioctl (ops udd)) as [h|].
    + destruct (negb (h UDD_RTIOC_IRQSIG arg =? - ENOSYS)); [reflexivity|].
      destruct (nonzero (ua_copy_ret arg)); [reflexivity|].
      destruct (sn_pid (ua_signfy arg) <=? 0); [reflexivity|].
      destruct ((sn_sig (ua_signfy arg) <? SIGRTMIN)
                || (SIGRTMAX <? sn_sig (ua_signfy arg))); [reflexivity|].
      destruct (negb (cobalt_thread_find_local k (sn_pid (ua_signfy arg))));
        reflexivity.
    + destruct (nonzero (ua_copy_ret arg)); [reflexivity|].
      destruct (sn_pid (ua_signfy arg) <=? 0); [reflexivity|].
      destruct ((sn_sig (ua_signfy arg) <? SIGRTMIN)
                || (SIGRTMAX <? sn_sig (ua_signfy arg))); [reflexivity|].
      destruct (negb (cobalt_thread_find_local k (sn_pid (ua_signfy arg))));
        reflexivity.
Qed.

(** *** Mapper endpoint *)

(** C8 (amended): a driver-supplied mmap handler is given every mapping
    request of the device, ahead of the length check as well as of the
    three built-in strategies.  Without one, a request longer than the
    region of the file's minor fails with [-EINVAL]; a request that fits
    goes to the I/O memory mapping for a PHYS region, the logical-address
    mapping for a LOGICAL region, the virtual-address mapping for a VIRTUAL
    one, each at the region's address, and fails with [-EINVAL] for any
    other type. *)
Theorem mapper_mmap_spec (udd : udd_device) (minor : Z) (vma : vm_area) :
  let len := to_size_t (vm_end vma - vm_start vma) in
  (forall h, ops_mmap (ops udd) = Some h ->
     mapper_mmap k udd minor vma = Some (h vma, [c_ops_mmap]))
  /\
  (forall rn, ops_mmap (ops udd) = None ->
     region_at udd minor = Some rn ->
     (rn_len rn < len ->
      mapper_mmap k udd minor vma = Some (- EINVAL, []))
     /\
     (len <= rn_len rn ->
      (rn_type rn = UDD_MEM_PHYS ->
       mapper_mmap k udd minor vma =
         Some (rtdm_mmap_iomem k vma (rn_addr rn),
               [c_rtdm_mmap_iomem (rn_addr rn)]))
      /\
      (rn_type rn = UDD_MEM_LOGICAL ->
       mapper_mmap k udd minor vma =
         Some (rtdm_mmap_kmem k vma (rn_addr rn),
               [c_rtdm_mmap_kmem (rn_addr rn)]))
      /\
      (rn_type rn = UDD_MEM_VIRTUAL ->
       mapper_mmap k udd minor vma =
         Some (rtdm_mmap_vmem k vma (rn_addr rn),
               [c_rtdm_mmap_vmem (rn_addr rn)]))
      /\
      (rn_type rn <> UDD_MEM_PHYS ->
       rn_type rn <> UDD_MEM_LOGICAL ->
       rn_type rn <> UDD_MEM_VIRTUAL ->
       mapper_mmap k udd minor vma = Some (- EINVAL, [])))).
Proof.
  intros len. destruct mmap_labels as (Hpl & Hpv & Hlv).
  split.
  - intros h Hops. unfold mapper_mmap. now rewrite Hops.
  - intros rn Hops Hrn. unfold mapper_mmap. rewrite Hops, Hrn. fold len.
    split.
    + intros Hlen. apply Z.ltb_lt in Hlen. now rewrite Hlen.
    + intros Hlen. apply Z.ltb_ge in Hlen. rewrite Hlen.
      repeat split.
      * intros ->. now rewrite Z.eqb_refl.
      * intros ->.
        assert (H : (UDD_MEM_LOGICAL =? UDD_MEM_PHYS) = false)
          by (apply Z.eqb_neq; congruence).
        now rewrite H, Z.eqb_refl.
      * intros ->.
        assert (H1 : (UDD_MEM_VIRTUAL =? UDD_MEM_PHYS) = false)
          by (apply Z.eqb_neq; congruence).
        assert (H2 : (UDD_MEM_VIRTUAL =? UDD_MEM_LOGICAL) = false)
          by (apply Z.eqb_neq; congruence).
        now rewrite H1, H2, Z.eqb_refl.
      * intros H1 H2 H3. apply Z.eqb_neq in H1, H2, H3.
        now rewrite H1, H2, H3.
Qed.

(** *** Control endpoint: read *)

(** The loop leaves at once when the counter differs. *)
Lemma read_wait_break (ev count : Z) (ws : list wakeup) (tr : list kcall) :
  to_u32 ev <> count ->
  read_wait ev count ws tr = Returned (inl ev, ev, tr).
Proof.
  intros H. apply Z.eqb_neq in H.
  destruct ws; cbn [read_wait]; now rewrite H.
Qed.

(** The loop sleeps through idle wakeups, one wait for each. *)
Lemma read_wait_idle (slept : list wakeup) :
  forall (ev count : Z) (rest : list wakeup) (tr : list kcall),
  to_u32 ev = count ->
  Forall (idle_wakeup count) slept ->
  read_wait ev count (slept ++ rest) tr =
    let tr' := tr ++ repeat c_rtdm_event_wait (List.length slept)
                  ++ [c_rtdm_event_wait] in
    match rest with
    | [] => Blocked tr'
    | w :: rest' =>
        if nonzero (wk_ret w) then Returned (inr (wk_ret w), wk_event w, tr')
        else read_wait (wk_event w) count rest' tr'
    end.
Proof.
  induction slept as [|s slept IH]; intros ev count rest tr Hev Hall.
  - apply Z.eqb_eq in Hev.
    destruct rest as [|w rest']; cbn [app read_wait repeat List.length];
      rewrite Hev; reflexivity.
  - apply Forall_cons_iff in Hall as [[Hret Hcnt] Hall'].
    apply Z.eqb_eq in Hev.
    cbn [app read_wait]. rewrite Hev, Hret. cbn [negb nonzero Z.eqb].
    rewrite (IH _ _ rest _ Hcnt Hall').
    cbn [List.length repeat app]. cbv zeta.
    rewrite <- !app_assoc. reflexivity.
Qed.

(** C4 (amended): [udd_read_rt] returns [-EINVAL] unless [len] is 4, and
    [-EIO] when the line is [UDD_IRQ_NONE]; any other line, [UDD_IRQ_CUSTOM]
    included, lets the read proceed.  It then leaves at once if the counter
    differs from the count the handle has seen, and otherwise sleeps in
    [rtdm_event_wait] for as long as each wakeup finds the counter
    unchanged: it is still blocked when no further wakeup comes, returns
    the error of a failed wait unchanged, and, on the first wakeup that
    finds a new counter value, copies that value to the caller, stores it
    as the handle's count and returns 4 (or the error of the copy). *)
Theorem read_spec
    (udd : udd_device) (ctx : udd_context) (len : Z) (ws : list wakeup) :
  let ur := reserved udd in
  let deliver (ev : Z) (tr : list kcall) :=
    Returned (elvis (rtdm_copy_to_user k (to_u32 ev)) sizeof_u32,
              set_reserved udd (set_event ur ev),
              mk_context (to_u32 ev),
              tr ++ [c_rtdm_copy_to_user (to_u32 ev)]) in
  (len <> sizeof_u32 ->
   udd_read_rt k udd ctx len ws = Returned (- EINVAL, udd, ctx, []))
  /\
  (len = sizeof_u32 -> irq udd = UDD_IRQ_NONE ->
   udd_read_rt k udd ctx len ws = Returned (- EIO, udd, ctx, []))
  /\
  (len = sizeof_u32 -> irq udd <> UDD_IRQ_NONE ->
   (to_u32 (ur_event ur) <> event_count ctx ->
    udd_read_rt k udd ctx len ws = deliver (ur_event ur) [])
   /\
   (to_u32 (ur_event ur) = event_count ctx ->
    forall slept : list wakeup,
    Forall (idle_wakeup (event_count ctx)) slept ->
    let waits := repeat c_rtdm_event_wait (S (List.length slept)) in
    (ws = slept -> udd_read_rt k udd ctx len ws = Blocked waits)
    /\
    (forall w rest, ws = slept ++ w :: rest ->
       wk_ret w <> 0 ->
       udd_read_rt k udd ctx len ws =
         Returned (wk_ret w, set_reserved udd (set_event ur (wk_event w)),
                   ctx, waits))
    /\
    (forall w rest, ws = slept ++ w :: rest ->
       wk_ret w = 0 ->
       to_u32 (wk_event w) <> event_count ctx ->
       udd_read_rt k udd ctx len ws = deliver (wk_event w) waits)))
  /\
  elvis 0 sizeof_u32 = 4.
Proof.
  intros ur deliver.
  assert (Hwaits : forall n,
             repeat c_rtdm_event_wait n ++ [c_rtdm_event_wait]
             = repeat c_rtdm_event_wait (S n)).
  { intros n. induction n as [|n IHn]; [reflexivity|].
    cbn [repeat app]. now rewrite IHn. }
  split; [|split; [|split]].
  - intros Hlen. unfold udd_read_rt. apply Z.eqb_neq in Hlen. now rewrite Hlen.
  - intros -> Hirq. unfold udd_read_rt. apply Z.eqb_eq in Hirq.
    now rewrite Hirq.
  - intros -> Hirq. apply Z.eqb_neq in Hirq.
    unfold udd_read_rt. rewrite Hirq. cbn [negb Z.eqb sizeof_u32].
    fold ur. split.
    + intros Hne. now rewrite (read_wait_break _ _ ws [] Hne).
    + intros Heq slept Hidle. rewrite <- Hwaits.
      split; [|split].
      * intros ->. rewrite <- (app_nil_r slept) at 1.
        rewrite (read_wait_idle slept _ _ [] [] Heq Hidle). reflexivity.
      * intros w rest -> Hret.
        rewrite (read_wait_idle slept _ _ (w :: rest) [] Heq Hidle).
        cbv zeta. apply nonzero_true in Hret. rewrite Hret. reflexivity.
      * intros w rest -> Hret Hne.
        rewrite (read_wait_idle slept _ _ (w :: rest) [] Heq Hidle).
        cbv zeta. rewrite Hret. cbn [nonzero Z.eqb negb].
        rewrite (read_wait_break _ _ rest _ Hne). reflexivity.
  - reflexivity.
Qed.

End Properties.

(** ** Further properties *)

Section Further.

Context {abi : udd_abi}.
Variable k : kernel.

(** *** Registration: when it succeeds and what it leaves *)

Lemma forallb_false_split {A : Type} (p : A -> bool) (l : list A) :
  forallb p l = false ->
  exists pre x post,
    l = pre ++ x :: post /\ forallb p pre = true /\ p x = false.
Proof.
  induction l as [|a l IH]; cbn [forallb]; [discriminate|].
  destruct (p a) eqn:Ha; cbn [andb].
  - intros H. destruct (IH H) as (pre & x & post & -> & Hpre & Hx).
    exists (a :: pre), x, post. cbn [forallb app]. now rewrite Ha.
  - intros _. exists [], a, l. now split.
Qed.

Lemma used_regions_pos (rns : list udd_memregion) :
  (0 <? used_regions rns) = existsb region_used rns.
Proof.
  unfold used_regions.
  induction rns as [|r rns IH]; [reflexivity|].
  cbn [filter existsb]. destruct (region_used r); cbn [orb List.length].
  - apply Z.ltb_lt. lia.
  - exact IH.
Qed.

(** The loop of [udd_register_device] either counts the slots in use or
    stops with [-EINVAL]. *)
Lemma check_memregions_result (ur : udd_reserved) (rns : list udd_memregion) :
  (forallb (fun r => negb (region_invalid r)) rns = true /\
   check_memregions ur rns = (0, set_nr_maps ur (ur_nr_maps ur + used_regions rns)))
  \/
  (forallb (fun r => negb (region_invalid r)) rns = false /\
   exists ur', check_memregions ur rns = (- EINVAL, ur')).
Proof.
  destruct (forallb (fun r => negb (region_invalid r)) rns) eqn:Hall.
  - left. split; [reflexivity|]. now apply check_memregions_valid.
  - right. split; [reflexivity|].
    destruct (forallb_false_split _ _ Hall) as (pre & x & post & -> & Hpre & Hx).
    apply negb_false_iff in Hx. eexists.
    now apply check_memregions_stops.
Qed.

(** Registration with every step succeeding. *)
Lemma register_succeeds (udd : udd_device) :
  realtime_core_enabled k = true ->
  missing_handler udd = false ->
  forallb (fun r => negb (region_invalid r)) (mem_regions udd) = true ->
  (existsb region_used (mem_regions udd) = true ->
   kasformat_ok k = true /\ rtdm_dev_register k MapperEndpoint = 0) ->
  (irq_is_line udd = true -> rtdm_irq_request k (irq udd) = 0) ->
  rtdm_dev_register k ControlEndpoint = 0 ->
  udd_register_device k udd =
    (0, set_reserved udd (reserved_registered udd),
     mapper_calls udd (used_regions (mem_regions udd))
     ++ [c_rtdm_event_init] ++ irq_calls udd
     ++ [c_rtdm_dev_register ControlEndpoint]).
Proof.
  intros Hcore Hh Hall Hmap Hirq Hctl.
  pose proof (check_memregions_valid (mem_regions udd)
                (set_nr_maps (reserved udd) 0) Hall) as Hchk.
  cbn [set_nr_maps ur_nr_maps] in Hchk. rewrite Z.add_0_l in Hchk.
  fold (used_regions (mem_regions udd)) in Hchk.
  rewrite (register_reaches_irq k udd _ Hcore Hh Hchk).
  2:{ cbn [ur_nr_maps]. intros Hn. apply Hmap.
      rewrite <- used_regions_pos. now apply Z.ltb_lt. }
  unfold register_irq, register_control, irq_calls.
  change (irq_is_line (set_reserved udd ?r)) with (irq_is_line udd).
  cbn [irq set_reserved ur_nr_maps].
  destruct (irq_is_line udd).
  - rewrite (Hirq eq_refl), Hctl. cbn [nonzero Z.eqb negb].
    rewrite <- !app_assoc. reflexivity.
  - rewrite Hctl. cbn [nonzero Z.eqb negb].
    rewrite <- !app_assoc. reflexivity.
Qed.

(** What a return of 0 from registration presupposes. *)
Lemma register_success_conditions (udd : udd_device) :
  fst (fst (udd_register_device k udd)) = 0 ->
  realtime_core_enabled k = true /\
  missing_handler udd = false /\
  forallb (fun r => negb (region_invalid r)) (mem_regions udd) = true /\
  (existsb region_used (mem_regions udd) = true ->
   kasformat_ok k = true /\ rtdm_dev_register k MapperEndpoint = 0) /\
  (irq_is_line udd = true -> rtdm_irq_request k (irq udd) = 0) /\
  rtdm_dev_register k ControlEndpoint = 0.
Proof.
  unfold udd_register_device.
  destruct (realtime_core_enabled k); cbn [negb]; [|discriminate].
  destruct (missing_handler udd); [discriminate|].
  destruct (check_memregions_result (set_nr_maps (reserved udd) 0)
              (mem_regions udd)) as [[Hall Hchk]|[_ [ur' Hchk]]];
    rewrite Hchk; cbn [nonzero Z.eqb negb fst]; [|discriminate].
  cbn [set_nr_maps ur_nr_maps]. rewrite Z.add_0_l, used_regions_pos.
  unfold register_mapper, kasformat.
  destruct (existsb region_used (mem_regions udd)).
  - destruct (kasformat_ok k); cbn [is_null]; [|discriminate].
    destruct (nonzero (rtdm_dev_register k MapperEndpoint)) eqn:Hm;
      cbn [fst].
    { intros H. apply nonzero_true in Hm. contradiction. }
    apply nonzero_false in Hm.
    unfold register_irq, register_control, fail_dev_register, fail_irq_request.
    change (irq_is_line (set_reserved udd ?r)) with (irq_is_line udd).
    cbn [irq set_reserved].
    destruct (irq_is_line udd).
    + destruct (nonzero (rtdm_irq_request k (irq udd))) eqn:Hi; cbn [fst].
      { intros H. apply nonzero_true in Hi. contradiction. }
      apply nonzero_false in Hi.
      destruct (nonzero (rtdm_dev_register k ControlEndpoint)) eqn:Hc;
        cbn [fst].
      { intros H. apply nonzero_true in Hc. contradiction. }
      apply nonzero_false in Hc. intros _. repeat split; auto.
    + destruct (nonzero (rtdm_dev_register k ControlEndpoint)) eqn:Hc;
        cbn [fst].
      { intros H. apply nonzero_true in Hc. contradiction. }
      apply nonzero_false in Hc. intros _. repeat split; auto; discriminate.
  - cbn [nonzero Z.eqb negb].
    unfold register_irq, register_control, fail_dev_register, fail_irq_request.
    change (irq_is_line (set_reserved udd ?r)) with (irq_is_line udd).
    cbn [irq set_reserved].
    destruct (irq_is_line udd).
    + destruct (nonzero (rtdm_irq_request k (irq udd))) eqn:Hi; cbn [fst].
      { intros H. apply nonzero_true in Hi. contradiction. }
      apply nonzero_false in Hi.
      destruct (nonzero (rtdm_dev_register k ControlEndpoint)) eqn:Hc;
        cbn [fst].
      { intros H. apply nonzero_true in Hc. contradiction. }
      apply nonzero_false in Hc. intros _. repeat split; auto; discriminate.
    + destruct (nonzero (rtdm_dev_register k ControlEndpoint)) eqn:Hc;
        cbn [fst].
      { intros H. apply nonzero_true in Hc. contradiction. }
      apply nonzero_false in Hc. intros _. repeat split; auto; discriminate.
Qed.

(** The device and the trace of a registration that returned 0. *)
Lemma register_success_device (udd udd' : udd_device) (tr : list kcall) :
  udd_register_device k udd = (0, udd', tr) ->
  udd' = set_reserved udd (reserved_registered udd)
  /\ tr = mapper_calls udd (used_regions (mem_regions udd))
          ++ [c_rtdm_event_init] ++ irq_calls udd
          ++ [c_rtdm_dev_register ControlEndpoint].
Proof.
  intros Hreg.
  assert (H0 : fst (fst (udd_register_device k udd)) = 0) by now rewrite Hreg.
  destruct (register_success_conditions udd H0)
    as (Hcore & Hh & Hall & Hmap & Hirq & Hctl).
  rewrite (register_succeeds udd Hcore Hh Hall Hmap Hirq Hctl) in Hreg.
  now injection Hreg as <- <-.
Qed.

(** X1: [udd_register_device] returns 0 exactly when the core is enabled,
    an interrupt handler comes with any declared line, no slot in use lacks
    a name, an address or a length, and every acquisition it attempts
    succeeds: the mapper's name and registration if some slot is in use,
    the interrupt request if the line is a concrete one, and the
    registration of the control endpoint. *)
Theorem register_success_iff (udd : udd_device) :
  fst (fst (udd_register_device k udd)) = 0 <->
  (realtime_core_enabled k = true /\
   missing_handler udd = false /\
   forallb (fun r => negb (region_invalid r)) (mem_regions udd) = true /\
   (existsb region_used (mem_regions udd) = true ->
    kasformat_ok k = true /\ rtdm_dev_register k MapperEndpoint = 0) /\
   (irq_is_line udd = true -> rtdm_irq_request k (irq udd) = 0) /\
   rtdm_dev_register k ControlEndpoint = 0).
Proof.
  split.
  - apply register_success_conditions.
  - intros (Hcore & Hh & Hall & Hmap & Hirq & Hctl).
    now rewrite (register_succeeds udd Hcore Hh Hall Hmap Hirq Hctl).
Qed.

(** X2: a registration that returns 0 has left the description of the
    device alone and the core's area in a known state: [nr_maps] is the
    number of slots in use (at most the size of the array), the mapper is
    named after the device if some slot is in use and has no name
    otherwise, the event count is 0 and the notification target is off.
    It has made the acquisitions in order (mapper, event bridge, interrupt,
    control endpoint) and no call that releases anything. *)
Theorem register_success_state
    (udd udd' : udd_device) (tr : list kcall) :
  udd_register_device k udd = (0, udd', tr) ->
  udd' = set_reserved udd (reserved_registered udd)
  /\ tr = mapper_calls udd (used_regions (mem_regions udd))
          ++ [c_rtdm_event_init] ++ irq_calls udd
          ++ [c_rtdm_dev_register ControlEndpoint]
  /\ 0 <= ur_nr_maps (reserved udd') <= Z.of_nat (List.length (mem_regions udd))
  /\ ur_event (reserved udd') = 0
  /\ sn_pid (ur_signfy (reserved udd')) = -1
  /\ (forall c, In c tr ->
        c <> c_rtdm_irq_free /\ c <> c_rtdm_event_destroy /\
        (forall e d, c <> c_rtdm_dev_unregister e d) /\
        (forall p, c <> c_kfree p)).
Proof.
  intros Hreg.
  destruct (register_success_device udd udd' tr Hreg) as [-> ->].
  split; [reflexivity|]. split; [reflexivity|].
  split.
  { cbn [reserved set_reserved reserved_registered ur_nr_maps].
    unfold used_regions. pose proof (filter_length_le region_used (mem_regions udd)).
    lia. }
  split; [reflexivity|]. split; [reflexivity|].
  intros c Hin. unfold mapper_calls, irq_calls in Hin.
  destruct (0 <? used_regions (mem_regions udd)), (irq_is_line udd);
    cbn [app In] in Hin;
    repeat (destruct Hin as [<-|Hin]; [repeat split; intros; discriminate|]);
    contradiction.
Qed.

(** X3: a device whose registration returned 0 is taken down by
    [udd_unregister_device], the core being enabled, in this order: the
    pulse is destroyed, the interrupt is released if and only if
    registration requested one, the mapper endpoint is unregistered, the
    mapper's name is freed if and only if registration allocated one, and
    the control endpoint is unregistered, whose result is the one
    returned. *)
Theorem register_then_unregister
    (k' : kernel) (udd udd' : udd_device) (tr : list kcall) (poll_delay : Z) :
  udd_register_device k udd = (0, udd', tr) ->
  realtime_core_enabled k' = true ->
  udd_unregister_device k' udd' poll_delay =
    (rtdm_dev_unregister k' ControlEndpoint poll_delay, udd',
     [c_rtdm_event_destroy]
     ++ (if irq_is_line udd then [c_rtdm_irq_free] else [])
     ++ [c_rtdm_dev_unregister MapperEndpoint poll_delay]
     ++ (if existsb region_used (mem_regions udd)
         then [c_kfree (Some (device_name udd ++ ",mapper")%string)] else [])
     ++ [c_rtdm_dev_unregister ControlEndpoint poll_delay])
  /\ (In c_rtdm_irq_free (snd (udd_unregister_device k' udd' poll_delay))
      <-> In (c_rtdm_irq_request (irq udd)) tr)
  /\ ((exists p, In (c_kfree p) (snd (udd_unregister_device k' udd' poll_delay)))
      <-> In (c_kasformat (device_name udd)) tr).
Proof.
  intros Hreg Hcore.
  assert (H0 : fst (fst (udd_register_device k udd)) = 0) by now rewrite Hreg.
  destruct (register_success_conditions udd H0)
    as (Hc & Hh & Hall & Hmap & Hirq & Hctl).
  rewrite (register_succeeds udd Hc Hh Hall Hmap Hirq Hctl) in Hreg.
  injection Hreg as <- <-.
  unfold udd_unregister_device. rewrite Hcore. cbn [negb snd].
  change (irq_is_line (set_reserved udd ?r)) with (irq_is_line udd).
  cbn [reserved set_reserved reserved_registered ur_mapper_name].
  unfold mapper_name_for, mapper_calls, irq_calls.
  rewrite used_regions_pos.
  destruct (irq_is_line udd), (existsb region_used (mem_regions udd));
    cbn [is_null app In];
    (split; [reflexivity|]); split; split;
    try (intros [p Hp]); intros;
    repeat match goal with
           | H : _ \/ _ |- _ => destruct H
           | H : False |- _ => destruct H
           | H : _ = _ |- _ => discriminate H
           end;
    try (eexists; cbn [In]); tauto.
Qed.

(** X4: when some slot is in use and the mapper endpoint cannot be stood
    up, registration stops there.  If the name cannot be allocated it
    returns [-ENOMEM] having called nothing else; if the registration of
    the mapper fails it returns that failure, the allocated name stays with
    the device and is not freed.  Either way the regions have been counted,
    the event count and the notification target are as they were, and
    neither the interrupt nor the control endpoint has been touched. *)
Theorem register_mapper_failure (udd : udd_device) :
  realtime_core_enabled k = true ->
  missing_handler udd = false ->
  forallb (fun r => negb (region_invalid r)) (mem_regions udd) = true ->
  existsb region_used (mem_regions udd) = true ->
  let counted :=
    set_nr_maps (reserved udd) (used_regions (mem_regions udd)) in
  (kasformat_ok k = false ->
   udd_register_device k udd =
     (- ENOMEM, set_reserved udd (set_mapper_name counted None),
      [c_kasformat (device_name udd)]))
  /\
  (kasformat_ok k = true ->
   rtdm_dev_register k MapperEndpoint <> 0 ->
   udd_register_device k udd =
     (rtdm_dev_register k MapperEndpoint,
      set_reserved udd
        (set_mapper_name counted (Some (device_name udd ++ ",mapper")%string)),
      [c_kasformat (device_name udd); c_rtdm_dev_register MapperEndpoint])).
Proof.
  intros Hcore Hh Hall Hused counted.
  assert (Hchk : check_memregions (set_nr_maps (reserved udd) 0)
                   (mem_regions udd) = (0, counted)).
  { rewrite (check_memregions_valid _ _ Hall).
    cbn [set_nr_maps ur_nr_maps]. now rewrite Z.add_0_l. }
  unfold udd_register_device. rewrite Hcore, Hh, Hchk.
  cbn [negb nonzero Z.eqb].
  assert (Hn : (0 <? ur_nr_maps counted) = true)
    by (unfold counted; cbn [set_nr_maps ur_nr_maps];
        now rewrite used_regions_pos).
  rewrite Hn.
  unfold register_mapper, kasformat. split.
  - intros ->. reflexivity.
  - intros -> Hr. apply nonzero_true in Hr. cbn [is_null]. now rewrite Hr.
Qed.

(** *** Interrupts, fresh handles and reads *)

Lemma set_event_same (udd : udd_device) :
  set_reserved udd (set_event (reserved udd) (ur_event (reserved udd))) = udd.
Proof. destruct udd as [n o i m r]. destruct r. reflexivity. Qed.

Lemma notify_event_state (udd : udd_device) :
  fst (udd_notify_event k udd) =
    set_reserved udd
      (set_event (reserved udd) (wrap_int (ur_event (reserved udd) + 1))).
Proof.
  unfold udd_notify_event. cbn [ur_signfy set_event].
  destruct (0 <? sn_pid (ur_signfy (reserved udd))); reflexivity.
Qed.

(** The device after [n] interrupts in a row. *)
Lemma notify_events_state (n : nat) :
  forall udd : udd_device,
  exists e',
    fst (notify_events k n udd) = set_reserved udd (set_event (reserved udd) e')
    /\ to_u32 e' = (to_u32 (ur_event (reserved udd)) + Z.of_nat n) mod 2 ^ 32.
Proof.
  induction n as [|n IH]; intros udd.
  - exists (ur_event (reserved udd)). cbn [notify_events fst].
    rewrite set_event_same. split; [reflexivity|].
    unfold to_u32. cbn [Z.of_nat]. now rewrite Z.add_0_r, Zmod_mod.
  - cbn [notify_events].
    pose proof (notify_event_state udd) as H1.
    destruct (udd_notify_event k udd) as [udd1 tr1]. cbn [fst] in H1.
    destruct (IH udd1) as (e' & Hfst & He).
    destruct (notify_events k n udd1) as [udd2 tr2]. cbn [fst] in *.
    exists e'. subst udd1 udd2.
    cbn [reserved set_reserved ur_event set_event] in *.
    split; [reflexivity|].
    rewrite He, to_u32_wrap_int. unfold to_u32.
    rewrite Zplus_mod_idemp_l, Nat2Z.inj_succ, Zplus_mod_idemp_l.
    f_equal. lia.
Qed.

(** With the notification target off, interrupts only signal the pulse. *)
Lemma notify_events_quiet (n : nat) :
  forall udd : udd_device,
  sn_pid (ur_signfy (reserved udd)) <= 0 ->
  snd (notify_events k n udd) = repeat c_rtdm_event_signal n.
Proof.
  induction n as [|n IH]; intros udd Hpid; [reflexivity|].
  cbn [notify_events repeat].
  pose proof (notify_event_state udd) as H1.
  assert (Hp : (0 <? sn_pid (ur_signfy (reserved udd))) = false)
    by (apply Z.ltb_ge; lia).
  assert (Htr : snd (udd_notify_event k udd) = [c_rtdm_event_signal]).
  { unfold udd_notify_event. cbn [ur_signfy set_event]. now rewrite Hp. }
  destruct (udd_notify_event k udd) as [udd1 tr1]. cbn [fst snd] in H1, Htr.
  specialize (IH udd1).
  destruct (notify_events k n udd1) as [udd2 tr2]. cbn [snd] in *.
  subst udd1 tr1. rewrite IH; [reflexivity|exact Hpid].
Qed.

(** X5: [n] interrupts in a row change nothing of the device but the
    event count, which readers see advanced by [n] modulo 2^32 (so that
    2^32 of them bring it back to where it was); with the notification
    target off they signal the pulse [n] times and queue no signal. *)
Theorem notify_events_count (n : nat) (udd : udd_device) :
  (exists e',
     fst (notify_events k n udd) = set_reserved udd (set_event (reserved udd) e')
     /\ to_u32 e' = (to_u32 (ur_event (reserved udd)) + Z.of_nat n) mod 2 ^ 32
     /\ (Z.of_nat n mod 2 ^ 32 = 0 ->
         to_u32 e' = to_u32 (ur_event (reserved udd))))
  /\ (sn_pid (ur_signfy (reserved udd)) <= 0 ->
      snd (notify_events k n udd) = repeat c_rtdm_event_signal n).
Proof.
  split.
  - destruct (notify_events_state n udd) as (e' & Hfst & He).
    exists e'. split; [exact Hfst|]. split; [exact He|].
    intros Hn. rewrite He. unfold to_u32.
    rewrite Zplus_mod_idemp_l, Zplus_mod, Hn, Z.add_0_r.
    now rewrite Zmod_mod.
  - apply notify_events_quiet.
Qed.

Lemma open_success (udd : udd_device) (ctx ctx' : udd_context)
    (oflags : Z) (tr : list kcall) :
  udd_open udd ctx oflags = (0, ctx', tr) -> ctx' = mk_context 0.
Proof.
  unfold udd_open. destruct (ops_open (ops udd)) as [h|].
  - destruct (nonzero (h oflags)) eqn:Hh.
    + intros H. injection H as H _ _. apply nonzero_true in Hh. contradiction.
    + intros H. now injection H as <- _.
  - intros H. now injection H as <- _.
Qed.

(** X6: on a device registered with success and with an interrupt line, a
    handle that has just been opened blocks in its first read as long as no
    interrupt has come, and after [n] interrupts ([0 < n < 2^32]) its first
    read returns at once, without waiting, delivering [n]. *)
Theorem first_read_after_events
    (udd udd1 : udd_device) (tr1 tr2 : list kcall)
    (ctx0 ctx1 : udd_context) (oflags : Z) (n : nat) (ws : list wakeup) :
  udd_register_device k udd = (0, udd1, tr1) ->
  irq udd <> UDD_IRQ_NONE ->
  udd_open udd1 ctx0 oflags = (0, ctx1, tr2) ->
  0 < Z.of_nat n < 2 ^ 32 ->
  udd_read_rt k udd1 ctx1 sizeof_u32 [] = Blocked [c_rtdm_event_wait]
  /\
  udd_read_rt k (fst (notify_events k n udd1)) ctx1 sizeof_u32 ws =
    Returned (elvis (rtdm_copy_to_user k (Z.of_nat n)) sizeof_u32,
              fst (notify_events k n udd1),
              mk_context (Z.of_nat n),
              [c_rtdm_copy_to_user (Z.of_nat n)]).
Proof.
  intros Hreg Hirq Hopen Hn.
  apply open_success in Hopen. subst ctx1.
  destruct (register_success_device udd udd1 tr1 Hreg) as (Hudd1 & _).
  apply Z.eqb_neq in Hirq.
  split.
  - unfold udd_read_rt. subst udd1. cbn [irq set_reserved]. rewrite Hirq.
    reflexivity.
  - destruct (notify_events_state n udd1) as (e' & Hfst & He).
    assert (Hev : ur_event (reserved udd1) = 0) by now subst udd1.
    rewrite Hev in He. change (to_u32 0) with 0 in He.
    rewrite Z.add_0_l, Z.mod_small in He by lia.
    unfold udd_read_rt.
    assert (Hirq2 : irq (fst (notify_events k n udd1)) = irq udd)
      by (rewrite Hfst; now subst udd1).
    rewrite Hirq2, Hirq. cbn [negb Z.eqb sizeof_u32 event_count].
    assert (Hev2 : ur_event (reserved (fst (notify_events k n udd1))) = e')
      by now rewrite Hfst.
    rewrite Hev2, read_wait_break by (rewrite He; lia).
    rewrite He. rewrite <- Hev2, set_event_same. reflexivity.
Qed.

(** What the loop of [udd_read_rt] has seen when it is left. *)
Lemma read_wait_inv (ws : list wakeup) :
  forall (ev count : Z) (tr : list kcall) (res : Z + Z) (ev' : Z)
         (tr' : list kcall),
  read_wait ev count ws tr = Returned (res, ev', tr') ->
  match res with
  | inl e => e = ev' /\ to_u32 ev' <> count
  | inr c => c <> 0 /\ exists w, In w ws /\ wk_ret w = c
  end.
Proof.
  induction ws as [|w ws IH]; intros ev count tr res ev' tr'; cbn [read_wait];
    destruct (to_u32 ev =? count) eqn:Hev; cbn [negb].
  - discriminate.
  - intros H. injection H as <- <- _. split; [reflexivity|now apply Z.eqb_neq].
  - destruct (nonzero (wk_ret w)) eqn:Hw.
    + intros H. injection H as <- _ _. split; [now apply nonzero_true|].
      exists w. split; [now left|reflexivity].
    + intros H. specialize (IH _ _ _ _ _ _ H).
      destruct res as [e|c]; [exact IH|].
      destruct IH as [Hc (w' & Hin & Hw')]. split; [exact Hc|].
      exists w'. split; [now right|exact Hw'].
  - intros H. injection H as <- <- _. split; [reflexivity|now apply Z.eqb_neq].
Qed.

(** X7: where [rtdm_event_wait] returns 0 or a negative error, a read
    that returns 4 has delivered the counter: the
    handle's count and the device's counter agree afterwards, the value is
    the one copied out, and the next read on that handle blocks, through
    any number of wakeups that find the counter unchanged. *)
Theorem read_then_read_blocks
    (udd udd' : udd_device) (ctx ctx' : udd_context)
    (ws slept : list wakeup) (tr : list kcall) :
  Forall (fun w => wk_ret w <= 0) ws ->
  udd_read_rt k udd ctx sizeof_u32 ws = Returned (sizeof_u32, udd', ctx', tr) ->
  Forall (idle_wakeup (event_count ctx')) slept ->
  event_count ctx' = to_u32 (ur_event (reserved udd'))
  /\ In (c_rtdm_copy_to_user (event_count ctx')) tr
  /\ udd_read_rt k udd' ctx' sizeof_u32 slept =
       Blocked (repeat c_rtdm_event_wait (List.length slept)
                ++ [c_rtdm_event_wait]).
Proof.
  intros Hws Hread Hidle.
  unfold udd_read_rt in Hread. cbn [negb Z.eqb sizeof_u32] in Hread.
  destruct (irq udd =? UDD_IRQ_NONE) eqn:Hirq; [discriminate|].
  destruct (read_wait (ur_event (reserved udd)) (event_count ctx) ws [])
    as [[[res ev] tr0]|tr0] eqn:Hwait; [|discriminate].
  pose proof (read_wait_inv ws _ _ _ _ _ _ Hwait) as Hinv.
  destruct res as [e|c].
  - destruct Hinv as [-> Hne].
    injection Hread as Hret <- <- <-.
    cbn [event_count reserved set_reserved ur_event set_event].
    split; [reflexivity|]. split; [apply in_or_app; right; now left|].
    unfold udd_read_rt. cbn [negb Z.eqb sizeof_u32 irq set_reserved].
    rewrite Hirq.
    cbn [event_count reserved set_reserved ur_event set_event].
    rewrite <- (app_nil_r slept) at 1.
    now rewrite (read_wait_idle slept _ _ [] [] eq_refl Hidle).
  - destruct Hinv as [Hc (w & Hin & Hw)].
    injection Hread as Hret _ _ _.
    rewrite Forall_forall in Hws. specialize (Hws w Hin). cbn beta in Hws.
    unfold sizeof_u32 in Hret. lia.
Qed.

(** *** Control endpoint: write *)

(** X8: [udd_write_rt] returns [-EINVAL] unless [len] is 4 and hands on
    the failure of the copy from user space, touching nothing in either
    case.  With the word copied in and no driver ioctl handler, it returns
    [-EIO] on a device without line and posts nothing; on any other device
    it returns 4 and posts one switch of the device's line, which the root
    stage turns into an enable for a non-zero word and a disable for zero.
    The device and the handle's context are never changed. *)
Theorem write_spec
    (udd : udd_device) (ctx : udd_context) (len : Z) (buf : Z * Z) :
  (len <> sizeof_u32 ->
   udd_write_rt k udd ctx len buf = (- EINVAL, udd, ctx, []))
  /\
  (len = sizeof_u32 -> fst buf <> 0 ->
   udd_write_rt k udd ctx len buf = (fst buf, udd, ctx, []))
  /\
  (len = sizeof_u32 -> fst buf = 0 -> ops_ioctl (ops udd) = None ->
   (irq udd = UDD_IRQ_NONE ->
    udd_write_rt k udd ctx len buf = (- EIO, udd, ctx, []))
   /\
   (irq udd <> UDD_IRQ_NONE ->
    udd_write_rt k udd ctx len buf =
      (sizeof_u32, udd, ctx,
       [c_ipipe_post_work_root (irq udd)
          (if to_u32 (snd buf) =? 0 then 0 else 1)])
    /\
    root_stage (snd (udd_write_rt k udd ctx len buf)) =
      [if to_u32 (snd buf) =? 0 then r_ipipe_disable_irq (irq udd)
       else r_ipipe_enable_irq (irq udd)])).
Proof.
  destruct ioctl_labels as (Hse & Hsd & Hed).
  split; [|split].
  - intros Hlen. unfold udd_write_rt. apply Z.eqb_neq in Hlen.
    now rewrite Hlen.
  - intros -> Hc. unfold udd_write_rt. apply nonzero_true in Hc.
    now rewrite Hc.
  - intros -> Hc Hops.
    assert (Hen : (UDD_RTIOC_IRQEN =? UDD_RTIOC_IRQSIG) = false)
      by (apply Z.eqb_neq; congruence).
    assert (Hds : (UDD_RTIOC_IRQDIS =? UDD_RTIOC_IRQSIG) = false)
      by (apply Z.eqb_neq; congruence).
    assert (Hde : (UDD_RTIOC_IRQDIS =? UDD_RTIOC_IRQEN) = false)
      by (apply Z.eqb_neq; congruence).
    unfold udd_write_rt, udd_ioctl_rt, ioctl_switch, nonzero,
      udd_post_irq_enable, udd_post_irq_disable, switch_irq_line.
    rewrite Hc, Hops. cbn [negb Z.eqb sizeof_u32].
    split.
    + intros Hirq. apply Z.eqb_eq in Hirq.
      destruct (to_u32 (snd buf) =? 0); cbn [negb];
        rewrite ?Hen, ?Hds, ?Hde, ?Z.eqb_refl, Hirq; reflexivity.
    + intros Hirq. apply Z.eqb_neq in Hirq.
      destruct (to_u32 (snd buf) =? 0); cbn [negb];
        rewrite ?Hen, ?Hds, ?Hde, ?Z.eqb_refl, Hirq;
        split; reflexivity.
Qed.

(** *** Interrupt handler *)

(** X9: on a device registered with success and with an interrupt line,
    [udd_irq_handler] always finds a driver handler to call and returns
    what it returns.  The first interrupt the driver reports as handled
    brings the event count to 1 and signals the pulse, without queuing a
    signal; one it does not report as handled changes nothing and wakes
    nobody. *)
Theorem irq_handler_after_register
    (udd udd' : udd_device) (tr : list kcall) :
  udd_register_device k udd = (0, udd', tr) ->
  irq udd <> UDD_IRQ_NONE ->
  exists r,
    ops_interrupt (ops udd) = Some r /\
    udd_irq_handler k udd' =
      Some (r,
            (if r =? RTDM_IRQ_HANDLED
             then set_reserved udd' (set_event (reserved udd') 1) else udd'),
            c_ops_interrupt ::
            (if r =? RTDM_IRQ_HANDLED then [c_rtdm_event_signal] else [])).
Proof.
  intros Hreg Hirq.
  assert (H0 : fst (fst (udd_register_device k udd)) = 0) by now rewrite Hreg.
  destruct (register_success_conditions udd H0) as (_ & Hh & _).
  destruct (register_success_device udd udd' tr Hreg) as [-> _].
  unfold missing_handler in Hh. apply Z.eqb_neq in Hirq.
  rewrite Hirq in Hh. cbn [negb andb] in Hh.
  destruct (ops_interrupt (ops udd)) as [r|] eqn:Hops; [|discriminate].
  exists r. split; [reflexivity|].
  unfold udd_irq_handler. cbn [ops set_reserved]. rewrite Hops.
  destruct (r =? RTDM_IRQ_HANDLED); reflexivity.
Qed.

(** *** Mapper endpoint: open *)

(** X10: [mapper_open] returns 0 or [-EIO], and 0 exactly for a minor
    inside [0, UDD_NR_MAPS) whose slot is in use.  A file it has let
    through is one on which [mapper_mmap] reads a slot of the array. *)
Theorem mapper_open_spec (udd : udd_device) (minor : Z) :
  (mapper_open udd minor = 0 \/ mapper_open udd minor = - EIO)
  /\
  (mapper_open udd minor = 0 <->
   0 <= minor < UDD_NR_MAPS /\
   exists rn, region_at udd minor = Some rn /\ region_used rn = true)
  /\
  (mapper_open udd minor = 0 ->
   forall vma, exists res, mapper_mmap k udd minor vma = Some res).
Proof.
  assert (Hneq : - EIO <> 0) by discriminate.
  unfold mapper_open, mapper_mmap, region_used.
  destruct (minor <? 0) eqn:Hlo; cbn [orb].
  { split; [now right|]. split.
    - split; [intros H; now apply Hneq in H|].
      intros [[H _] _]. apply Z.ltb_lt in Hlo. lia.
    - intros H. now apply Hneq in H. }
  destruct (UDD_NR_MAPS <=? minor) eqn:Hhi.
  { split; [now right|]. split.
    - split; [intros H; now apply Hneq in H|].
      intros [[_ H] _]. apply Z.leb_le in Hhi. lia.
    - intros H. now apply Hneq in H. }
  apply Z.ltb_ge in Hlo. apply Z.leb_gt in Hhi.
  destruct (region_at udd minor) as [rn|].
  - destruct (rn_type rn =? UDD_MEM_NONE) eqn:Ht.
    + split; [now right|]. split.
      * split; [intros H; now apply Hneq in H|].
        intros [_ (rn' & Hrn & Hu)]. injection Hrn as <-.
        rewrite Ht in Hu. discriminate.
      * intros H. now apply Hneq in H.
    + split; [now left|]. split.
      * split; [|reflexivity]. intros _. split; [lia|].
        exists rn. now rewrite Ht.
      * intros _ vma. destruct (ops_mmap (ops udd)); [eauto|].
        destruct (rn_len rn <? to_size_t (vm_end vma - vm_start vma)); [eauto|].
        destruct (rn_type rn =? UDD_MEM_PHYS); [eauto|].
        destruct (rn_type rn =? UDD_MEM_LOGICAL); [eauto|].
        destruct (rn_type rn =? UDD_MEM_VIRTUAL); eauto.
  - split; [now right|]. split.
    + split; [intros H; now apply Hneq in H|].
      intros [_ (rn' & Hrn & _)]. discriminate.
    + intros H. now apply Hneq in H.
Qed.

(** X11: registration does not look at the type of a slot beyond telling
    it from [UDD_MEM_NONE].  A slot with a name, an address and a length
    whose type is none of the four known ones is counted by
    [check_memregion] and its minor can be opened, but without a driver
    mmap handler no request on it is ever mapped: [mapper_mmap] returns
    [-EINVAL] and calls no mapping service. *)
Theorem unknown_type_never_maps
    (udd : udd_device) (minor : Z) (rn : udd_memregion) (vma : vm_area) :
  region_at udd minor = Some rn ->
  0 <= minor < UDD_NR_MAPS ->
  rn_type rn <> UDD_MEM_NONE ->
  rn_type rn <> UDD_MEM_PHYS ->
  rn_type rn <> UDD_MEM_LOGICAL ->
  rn_type rn <> UDD_MEM_VIRTUAL ->
  rn_name rn <> None -> rn_addr rn <> 0 -> rn_len rn <> 0 ->
  ops_mmap (ops udd) = None ->
  (forall ur, check_memregion ur rn = (0, set_nr_maps ur (ur_nr_maps ur + 1)))
  /\ mapper_open udd minor = 0
  /\ mapper_mmap k udd minor vma = Some (- EINVAL, []).
Proof.
  intros Hrn [Hlo Hhi] Hn Hp Hl Hv Hname Haddr Hlen Hops.
  apply Z.eqb_neq in Hn, Hp, Hl, Hv, Haddr, Hlen.
  split; [|split].
  - intros ur. unfold check_memregion. rewrite Hn, Haddr, Hlen.
    destruct (rn_name rn); [reflexivity|contradiction].
  - unfold mapper_open. rewrite Hrn, Hn.
    assert (H1 : (minor <? 0) = false) by (apply Z.ltb_ge; lia).
    assert (H2 : (UDD_NR_MAPS <=? minor) = false) by (apply Z.leb_gt; lia).
    now rewrite H1, H2.
  - unfold mapper_mmap. rewrite Hops, Hrn, Hp, Hl, Hv.
    now destruct (rn_len rn <? to_size_t (vm_end vma - vm_start vma)).
Qed.

(** *** Control endpoint: what ioctl leaves alone *)




(** X13: once the notification-target request has stored a positive pid
    (the request reached the core and returned 0), the next interrupt event
    queues the stored signal to that pid, after the pulse, with the
    incremented count as its payload. *)
Theorem irqsig_then_notify
    (udd udd' : udd_device) (ctx ctx' : udd_context) (arg : user_arg)
    (tr : list kcall) :
  ioctl_falls_through udd UDD_RTIOC_IRQSIG arg = true ->
  0 < sn_pid (ua_signfy arg) ->
  udd_ioctl_rt k udd ctx UDD_RTIOC_IRQSIG arg = (0, udd', ctx', tr) ->
  let count := wrap_int (ur_event (reserved udd) + 1) in
  udd_notify_event k udd' =
    (set_reserved udd' (set_event (reserved udd') count),
     [c_rtdm_event_signal;
      c_cobalt_sigqueue (sn_pid (ua_signfy arg)) (sn_sig (ua_signfy arg)) count]).
Proof.
  intros Hft Hpid Hio count.
  rewrite (ioctl_through k udd ctx _ arg Hft) in Hio.
  unfold ioctl_switch in Hio. rewrite Z.eqb_refl in Hio.
  assert (Hp : (sn_pid (ua_signfy arg) <=? 0) = false)
    by (apply Z.leb_gt; lia).
  assert (Hp' : (0 <? sn_pid (ua_signfy arg)) = true) by now apply Z.ltb_lt.
  destruct (nonzero (ua_copy_ret arg)) eqn:Hc.
  { injection Hio as H _ _ _. apply nonzero_true in Hc. contradiction. }
  rewrite Hp in Hio.
  destruct ((sn_sig (ua_signfy arg) <? SIGRTMIN)
            || (SIGRTMAX <? sn_sig (ua_signfy arg))); [discriminate|].
  destruct (negb (cobalt_thread_find_local k (sn_pid (ua_signfy arg))));
    [discriminate|].
  injection Hio as _ <- _ _.
  unfold udd_notify_event.
  cbn [reserved set_reserved set_signfy ur_signfy ur_event set_event].
  rewrite Hp'. reflexivity.
Qed.

(** X14: interrupts that come between two reads of a handle are
    delivered together.  On a device with a line, a handle whose count is
    up to date and that reads after [n] further interrupts gets, at once
    and without waiting, the count advanced by [n] modulo 2^32, provided
    [n] is no multiple of 2^32; if it is one, the read blocks as if nothing
    had happened. *)
Theorem read_after_events
    (udd : udd_device) (ctx : udd_context) (n : nat) (ws : list wakeup) :
  irq udd <> UDD_IRQ_NONE ->
  event_count ctx = to_u32 (ur_event (reserved udd)) ->
  let udd' := fst (notify_events k n udd) in
  let count := (event_count ctx + Z.of_nat n) mod 2 ^ 32 in
  (Z.of_nat n mod 2 ^ 32 <> 0 ->
   udd_read_rt k udd' ctx sizeof_u32 ws =
     Returned (elvis (rtdm_copy_to_user k count) sizeof_u32, udd',
               mk_context count, [c_rtdm_copy_to_user count]))
  /\
  (Z.of_nat n mod 2 ^ 32 = 0 ->
   udd_read_rt k udd' ctx sizeof_u32 [] = Blocked [c_rtdm_event_wait]).
Proof.
  intros Hirq Hctx udd' count.
  destruct (notify_events_state n udd) as (e' & Hfst & He).
  fold udd' in Hfst.
  assert (Hirq' : (irq udd' =? UDD_IRQ_NONE) = false)
    by (rewrite Hfst; now apply Z.eqb_neq).
  assert (Hev : ur_event (reserved udd') = e') by now rewrite Hfst.
  rewrite <- Hctx in He. fold count in He.
  assert (Hrange : 0 <= event_count ctx < 2 ^ 32)
    by (rewrite Hctx; apply Z.mod_pos_bound; lia).
  unfold udd_read_rt. rewrite Hirq'. cbn [negb Z.eqb sizeof_u32].
  rewrite Hev. split.
  - intros Hn.
    assert (Hne : to_u32 e' <> event_count ctx).
    { rewrite He. unfold count. intros Heq.
      apply Hn.
      rewrite <- (Z.mod_small (event_count ctx) (2 ^ 32)) in Heq at 2 by lia.
      apply (f_equal (fun x => (x - event_count ctx) mod 2 ^ 32)) in Heq.
      rewrite Zminus_mod_idemp_l, Zminus_mod_idemp_l in Heq.
      replace (event_count ctx + Z.of_nat n - event_count ctx)
        with (Z.of_nat n) in Heq by lia.
      rewrite Z.sub_diag in Heq. exact Heq. }
    rewrite (read_wait_break _ _ ws [] Hne), He.
    rewrite <- Hev, set_event_same. reflexivity.
  - intros Hn.
    assert (Heq : (to_u32 e' =? event_count ctx) = true).
    { apply Z.eqb_eq. rewrite He. unfold count.
      rewrite Zplus_mod, Hn, Z.add_0_r, Zmod_mod. now apply Z.mod_small. }
    cbn [read_wait]. now rewrite Heq.
Qed.

End Further.

(** ** The properties on the sample data *)

#[local] Existing Instance sample_abi.

(** C7 at work: the core is off for a device with a bad region; the core
    is on for a device on line 7 without interrupt handler. *)
Lemma register_rejects_before_validation_witness :
  udd_register_device (abi := sample_abi) kernel_core_off dev_badregion
    = (- ENXIO, dev_badregion, [])
  /\ udd_register_device (abi := sample_abi) kernel_ok dev_nohandler
    = (- EINVAL, dev_nohandler, []).
Proof.
  split.
  - apply (proj1 (register_rejects_before_validation (abi := sample_abi)
                    kernel_core_off dev_badregion)).
    reflexivity.
  - apply (proj2 (register_rejects_before_validation (abi := sample_abi)
                    kernel_ok dev_nohandler)).
    + reflexivity.
    + vm_compute. discriminate.
    + reflexivity.
Defined.

(** C2 at work: slot 2 of [dev_badregion] has no length; two slots in use
    were counted before it, and the stale event count and notification
    target of the device are still there. *)
Lemma register_invalid_region_witness :
  udd_register_device (abi := sample_abi) kernel_ok dev_badregion
    = (- EINVAL,
       mk_device "foo" ops_irq_only 7
         [region_regs; region_ram; region_empty; region_none; region_none]
         (mk_reserved 2 None 41 (mk_signotify 12 34)),
       []).
Proof.
  exact (register_invalid_region (abi := sample_abi) kernel_ok dev_badregion
           [region_regs; region_ram] region_empty [region_none; region_none]
           eq_refl eq_refl eq_refl eq_refl).
Defined.

(** C9 at work: [dev_line] is registered, then the core goes off. *)
Lemma unregister_core_disabled_witness :
  fst (fst (udd_register_device (abi := sample_abi) kernel_ok dev_line)) = 0
  /\ udd_unregister_device (abi := sample_abi) kernel_core_off
       (snd (fst (udd_register_device (abi := sample_abi) kernel_ok dev_line)))
       100
     = (- ENXIO,
        snd (fst (udd_register_device (abi := sample_abi) kernel_ok dev_line)),
        []).
Proof.
  split.
  - reflexivity.
  - apply (unregister_core_disabled (abi := sample_abi) kernel_core_off).
    reflexivity.
Defined.

(** C1 as stated fails: [dev_line_nomem] has no region in use, so that no
    mapper endpoint is ever registered; when its control endpoint cannot be
    registered, the rollback unregisters the mapper endpoint all the same. *)
Lemma register_rollback_counterexample :
  udd_register_device (abi := sample_abi) kernel_control_busy dev_line_nomem
    = (- EBUSY,
       set_reserved dev_line_nomem (mk_reserved 0 None 0 (mk_signotify (-1) 0)),
       [c_rtdm_event_init; c_rtdm_irq_request 7;
        c_rtdm_dev_register ControlEndpoint;
        c_rtdm_irq_free;
        c_rtdm_dev_unregister MapperEndpoint 0; c_kfree None])
  /\ In (c_rtdm_dev_unregister MapperEndpoint 0)
        (snd (udd_register_device (abi := sample_abi)
                kernel_control_busy dev_line_nomem))
  /\ ~ In (c_rtdm_dev_register MapperEndpoint)
        (snd (udd_register_device (abi := sample_abi)
                kernel_control_busy dev_line_nomem)).
Proof.
  split; [reflexivity|]. split.
  - vm_compute. tauto.
  - vm_compute. intuition discriminate.
Qed.

(** C1 (amended) at work on [dev_line], whose slot 0 is in use: the line
    cannot be bound; then the control endpoint cannot be registered. *)
Lemma register_rollback_witness :
  udd_register_device (abi := sample_abi) kernel_irq_busy dev_line
    = (- EBUSY,
       set_reserved dev_line
         (mk_reserved 1 (Some "foo,mapper"%string) 0 (mk_signotify (-1) 0)),
       [c_kasformat "foo"; c_rtdm_dev_register MapperEndpoint;
        c_rtdm_event_init; c_rtdm_irq_request 7;
        c_rtdm_dev_unregister MapperEndpoint 0;
        c_kfree (Some "foo,mapper"%string)])
  /\ udd_register_device (abi := sample_abi) kernel_control_busy dev_line
    = (- EBUSY,
       set_reserved dev_line
         (mk_reserved 1 (Some "foo,mapper"%string) 0 (mk_signotify (-1) 0)),
       [c_kasformat "foo"; c_rtdm_dev_register MapperEndpoint;
        c_rtdm_event_init; c_rtdm_irq_request 7;
        c_rtdm_dev_register ControlEndpoint;
        c_rtdm_irq_free;
        c_rtdm_dev_unregister MapperEndpoint 0;
        c_kfree (Some "foo,mapper"%string)]).
Proof.
  split.
  - apply (proj1 (register_rollback (abi := sample_abi) kernel_irq_busy
                    dev_line (mk_reserved 1 None 0 (mk_signotify 0 0))
                    (- EBUSY) eq_refl eq_refl eq_refl
                    (fun _ => conj eq_refl eq_refl)
                    ltac:(discriminate)));
      reflexivity.
  - apply (proj1 (proj2 (register_rollback (abi := sample_abi)
                    kernel_control_busy
                    dev_line (mk_reserved 1 None 0 (mk_signotify 0 0))
                    (- EBUSY) eq_refl eq_refl eq_refl
                    (fun _ => conj eq_refl eq_refl)
                    ltac:(discriminate))));
      reflexivity.
Defined.

(** C3 at work: the count goes from 41 to 42 and pid 12 is sent signal 34
    with payload 42, in a kernel where [cobalt_sigqueue] fails as in one
    where it succeeds; with the target off only the pulse is signalled. *)
Lemma notify_event_spec_witness :
  udd_notify_event kernel_no_thread dev_badregion
    = (set_reserved dev_badregion (mk_reserved 9 None 42 (mk_signotify 12 34)),
       [c_rtdm_event_signal; c_cobalt_sigqueue 12 34 42])
  /\ udd_notify_event kernel_ok dev_badregion
     = udd_notify_event kernel_no_thread dev_badregion
  /\ udd_notify_event kernel_ok dev_live
     = (set_reserved dev_live
          (mk_reserved 1 (Some "foo,mapper"%string) 4 (mk_signotify (-1) 0)),
        [c_rtdm_event_signal]).
Proof.
  split; [|split].
  - exact (proj1 (notify_event_spec kernel_no_thread dev_badregion)).
  - exact (proj2 (proj2 (proj2 (notify_event_spec kernel_no_thread
                                  dev_badregion)))
             kernel_ok).
  - exact (proj1 (notify_event_spec kernel_ok dev_live)).
Defined.

(** C6 at work on [dev_line] with target (12, 34) stored: pid 0 with a
    signal number out of range turns the target off; pid 5 with signal 10
    is refused and the target stays; pid 5 with signal 40 is stored; where
    no thread has pid 5 it is refused. *)
Lemma ioctl_irqsig_spec_witness :
  udd_ioctl_rt (abi := sample_abi) kernel_ok dev_target (mk_context 41) UDD_RTIOC_IRQSIG
      (mk_user_arg 0 (mk_signotify 0 999))
    = (0, set_reserved dev_line (mk_reserved 1 None 41 (mk_signotify (-1) 34)),
       mk_context 41, [])
  /\ udd_ioctl_rt (abi := sample_abi) kernel_ok dev_target (mk_context 41) UDD_RTIOC_IRQSIG
      (mk_user_arg 0 (mk_signotify 5 10))
    = (- EINVAL, dev_target, mk_context 41, [])
  /\ udd_ioctl_rt (abi := sample_abi) kernel_ok dev_target (mk_context 41) UDD_RTIOC_IRQSIG
      (mk_user_arg 0 (mk_signotify 5 40))
    = (0, set_reserved dev_line (mk_reserved 1 None 41 (mk_signotify 5 40)),
       mk_context 41, [])
  /\ udd_ioctl_rt (abi := sample_abi) kernel_no_thread dev_target (mk_context 41) UDD_RTIOC_IRQSIG
      (mk_user_arg 0 (mk_signotify 5 40))
    = (- EINVAL, dev_target, mk_context 41, []).
Proof.
  split; [|split; [|split]].
  - apply (proj1 (proj1 (ioctl_irqsig_spec (abi := sample_abi) kernel_ok
                    dev_target (mk_context 41)
                    (mk_user_arg 0 (mk_signotify 0 999)) eq_refl eq_refl)
                    ltac:(vm_compute; discriminate))).
  - apply (proj1 (proj2 (ioctl_irqsig_spec (abi := sample_abi) kernel_ok dev_target (mk_context 41)
                    (mk_user_arg 0 (mk_signotify 5 10)) eq_refl eq_refl))).
    + reflexivity.
    + left. reflexivity.
  - apply (proj2 (proj2 (ioctl_irqsig_spec (abi := sample_abi) kernel_ok dev_target (mk_context 41)
                    (mk_user_arg 0 (mk_signotify 5 40)) eq_refl eq_refl))).
    + reflexivity.
    + split; vm_compute; discriminate.
    + reflexivity.
  - apply (proj1 (proj2 (ioctl_irqsig_spec (abi := sample_abi)
                    kernel_no_thread dev_target (mk_context 41)
                    (mk_user_arg 0 (mk_signotify 5 40)) eq_refl eq_refl))).
    + reflexivity.
    + right. right. reflexivity.
Defined.

(** C10 at work: request 42 on [dev_live]. *)
Lemma ioctl_unknown_request_witness :
  udd_ioctl_rt (abi := sample_abi) kernel_ok dev_live (mk_context 3) 42 null_arg
    = (0, dev_live, mk_context 3, []).
Proof.
  apply (ioctl_unknown_request (abi := sample_abi) kernel_ok);
    [reflexivity | vm_compute; discriminate ..].
Defined.

(** C5 as stated fails: [dev_noirq] declares no interrupt line, yet the
    notification-target request succeeds on it. *)
Lemma ioctl_dispatch_counterexample :
  irq dev_noirq = UDD_IRQ_NONE
  /\ udd_ioctl_rt (abi := sample_abi) kernel_ok dev_noirq (mk_context 0)
       (UDD_RTIOC_IRQSIG)
       (mk_user_arg 0 (mk_signotify 0 0))
     = (0,
        set_reserved dev_noirq (mk_reserved 0 None 0 (mk_signotify (-1) 0)),
        mk_context 0, []).
Proof.
  split; reflexivity.
Qed.

(** C5 (amended) at work: a driver handler answering 7 is final; enable on
    a device without line fails with [-EIO]; disable on line 7 posts the
    switch. *)
Lemma ioctl_dispatch_witness :
  udd_ioctl_rt (abi := sample_abi) kernel_ok
      (mk_device "foo" ops_ioctl_own 7 [] reserved_fresh) (mk_context 0)
      UDD_RTIOC_IRQEN null_arg
    = (7, mk_device "foo" ops_ioctl_own 7 [] reserved_fresh, mk_context 0,
       [c_ops_ioctl UDD_RTIOC_IRQEN])
  /\ udd_ioctl_rt (abi := sample_abi) kernel_ok dev_noirq (mk_context 0)
      UDD_RTIOC_IRQEN null_arg
    = (- EIO, dev_noirq, mk_context 0, [])
  /\ snd (udd_ioctl_rt (abi := sample_abi) kernel_ok dev_live (mk_context 3)
      UDD_RTIOC_IRQDIS null_arg)
    = [c_ipipe_post_work_root 7 0].
Proof.
  split; [|split].
  - apply (proj1 (ioctl_dispatch (abi := sample_abi) kernel_ok
                    (mk_device "foo" ops_ioctl_own 7 [] reserved_fresh)
                    (mk_context 0) UDD_RTIOC_IRQEN null_arg)
             (fun _ _ => 7) eq_refl).
    vm_compute. discriminate.
  - apply (proj1 (proj2 (ioctl_dispatch (abi := sample_abi) kernel_ok
                    dev_noirq (mk_context 0) UDD_RTIOC_IRQEN null_arg))
             eq_refl (or_introl eq_refl)).
    reflexivity.
  - destruct (proj2 (proj1 (proj2 (ioctl_dispatch (abi := sample_abi)
                    kernel_ok dev_live (mk_context 3)
                    UDD_RTIOC_IRQDIS null_arg))
             eq_refl (or_intror eq_refl)) eq_refl)
      as [ret [Hret _]].
    rewrite Hret. reflexivity.
Defined.

(** C8 as stated fails: the region in slot 0 of [dev_mmap_own] is 4096
    bytes long, and a request for 8192 bytes is handed to the driver's
    mmap handler, which accepts it. *)
Lemma mapper_mmap_counterexample :
  option_map rn_len (region_at dev_mmap_own 0) = Some 4096
  /\ to_size_t (abi := sample_abi) (vm_end (mk_vma 0 8192) - vm_start (mk_vma 0 8192))
     = 8192
  /\ mapper_mmap (abi := sample_abi) kernel_ok dev_mmap_own 0 (mk_vma 0 8192)
     = Some (0, [c_ops_mmap]).
Proof.
  repeat split.
Qed.

(** C8 (amended) at work: the driver's handler first; without one, 8192
    bytes do not fit slot 0 of [dev_live], 4096 bytes are mapped as I/O
    memory at its address. *)
Lemma mapper_mmap_spec_witness :
  mapper_mmap (abi := sample_abi) kernel_ok dev_mmap_own 0 (mk_vma 0 8192)
    = Some (0, [c_ops_mmap])
  /\ mapper_mmap (abi := sample_abi) kernel_ok dev_live 0 (mk_vma 0 8192)
    = Some (- EINVAL, [])
  /\ mapper_mmap (abi := sample_abi) kernel_ok dev_live 0 (mk_vma 4096 8192)
    = Some (0, [c_rtdm_mmap_iomem 4096]).
Proof.
  split; [|split].
  - apply (proj1 (mapper_mmap_spec (abi := sample_abi) kernel_ok
                    dev_mmap_own 0 (mk_vma 0 8192)) (fun _ => 0)).
    reflexivity.
  - apply (proj1 (proj2 (mapper_mmap_spec (abi := sample_abi) kernel_ok
                    dev_live 0 (mk_vma 0 8192)) region_regs eq_refl eq_refl)).
    reflexivity.
  - apply (proj1 (proj2 (proj2 (mapper_mmap_spec (abi := sample_abi) kernel_ok
                    dev_live 0 (mk_vma 4096 8192)) region_regs eq_refl eq_refl)
             ltac:(vm_compute; discriminate))).
    reflexivity.
Defined.

(** C4 as stated fails: [dev_custom] declares [UDD_IRQ_CUSTOM], which is
    no concrete line, and a read on it returns the count. *)
Lemma read_spec_counterexample :
  irq dev_custom = UDD_IRQ_CUSTOM
  /\ udd_read_rt (abi := sample_abi) kernel_ok dev_custom (mk_context 0) 4 []
     = Returned (4, dev_custom, mk_context 3, [c_rtdm_copy_to_user 3]).
Proof.
  split; reflexivity.
Qed.

(** C4 (amended) at work on [dev_live], whose count 3 the handle has seen:
    without wakeup the read stays blocked; a failed wait is returned; a
    wakeup at count 3 sends the reader back to sleep and the next one, at
    count 4, delivers 4. *)
Lemma read_spec_witness :
  udd_read_rt (abi := sample_abi) kernel_ok dev_live (mk_context 3) 4 []
    = Blocked [c_rtdm_event_wait]
  /\ udd_read_rt (abi := sample_abi) kernel_ok dev_live (mk_context 3) 4
       [mk_wakeup (-4) 3]
    = Returned (-4, dev_live, mk_context 3, [c_rtdm_event_wait])
  /\ udd_read_rt (abi := sample_abi) kernel_ok dev_live (mk_context 3) 4
       [mk_wakeup 0 3; mk_wakeup 0 4]
    = Returned (4,
                set_reserved dev_live
                  (mk_reserved 1 (Some "foo,mapper"%string) 4 (mk_signotify (-1) 0)),
                mk_context 4,
                [c_rtdm_event_wait; c_rtdm_event_wait; c_rtdm_copy_to_user 4])
  /\ udd_read_rt (abi := sample_abi) kernel_ok dev_live (mk_context 3) 3 []
    = Returned (- EINVAL, dev_live, mk_context 3, [])
  /\ udd_read_rt (abi := sample_abi) kernel_ok dev_noirq (mk_context 0) 4 []
    = Returned (- EIO, dev_noirq, mk_context 0, []).
Proof.
  assert (Hline : irq dev_live <> UDD_IRQ_NONE)
    by (vm_compute; discriminate).
  split; [|split; [|split; [|split]]].
  - apply (proj1 (proj2 (proj1 (proj2 (proj2 (read_spec (abi := sample_abi)
             kernel_ok dev_live (mk_context 3) 4 []))) eq_refl Hline)
             eq_refl [] (Forall_nil _)) eq_refl).
  - apply (proj1 (proj2 (proj2 (proj1 (proj2 (proj2 (read_spec
             (abi := sample_abi) kernel_ok dev_live (mk_context 3) 4
             [mk_wakeup (-4) 3]))) eq_refl Hline)
             eq_refl [] (Forall_nil _))) (mk_wakeup (-4) 3) [] eq_refl).
    vm_compute. discriminate.
  - apply (proj2 (proj2 (proj2 (proj1 (proj2 (proj2 (read_spec
             (abi := sample_abi) kernel_ok dev_live (mk_context 3) 4
             [mk_wakeup 0 3; mk_wakeup 0 4]))) eq_refl Hline)
             eq_refl [mk_wakeup 0 3]
             (Forall_cons (mk_wakeup 0 3)
                (conj eq_refl eq_refl : idle_wakeup 3 (mk_wakeup 0 3))
                (Forall_nil _))))
             (mk_wakeup 0 4) [] eq_refl eq_refl).
    vm_compute. discriminate.
  - apply (proj1 (read_spec (abi := sample_abi) kernel_ok dev_live
                    (mk_context 3) 3 [])).
    vm_compute. discriminate.
  - apply (proj1 (proj2 (read_spec (abi := sample_abi) kernel_ok dev_noirq
                    (mk_context 0) 4 [])));
      reflexivity.
Defined.

(** ** Two further observations *)

(** On a device without interrupt line, the rollback after a failed
    registration of the control endpoint releases an interrupt that was
    never requested; [udd_unregister_device] tests the line before it
    releases anything. *)
Example rollback_releases_unrequested_irq :
  snd (udd_register_device kernel_control_busy dev_noirq)
    = [c_rtdm_event_init; c_rtdm_dev_register ControlEndpoint;
       c_rtdm_irq_free;
       c_rtdm_dev_unregister MapperEndpoint 0; c_kfree None]
  /\ snd (udd_unregister_device kernel_ok dev_noirq 0)
    = [c_rtdm_event_destroy;
       c_rtdm_dev_unregister MapperEndpoint 0;
       c_rtdm_dev_unregister ControlEndpoint 0].
Proof.
  split; reflexivity.
Qed.

(** An enable request that a driver handler leaves to the core with
    [-ENOSYS] is carried out, and [-ENOSYS] is what the caller gets. *)
Example ioctl_enable_after_enosys :
  udd_ioctl_rt kernel_ok
      (mk_device "foo" ops_ioctl_enosys 7 [] reserved_fresh) (mk_context 0)
      UDD_RTIOC_IRQEN null_arg
    = (- ENOSYS, mk_device "foo" ops_ioctl_enosys 7 [] reserved_fresh,
       mk_context 0,
       [c_ops_ioctl UDD_RTIOC_IRQEN; c_ipipe_post_work_root 7 1]).
Proof.
  reflexivity.
Qed.

(** ** The further properties on the sample data *)

(** X1 at work: [dev_line] in a kernel where everything succeeds. *)
Lemma register_success_iff_witness :
  fst (fst (udd_register_device kernel_ok dev_line)) = 0.
Proof.
  apply (proj2 (register_success_iff (abi := sample_abi) kernel_ok dev_line)).
  split; [reflexivity|]. split; [reflexivity|]. split; [reflexivity|].
  split; [intros _; split; reflexivity|].
  split; [intros _; reflexivity|reflexivity].
Defined.

(** X2 at work: what registration leaves of [dev_line]. *)
Lemma register_success_state_witness :
  dev_registered = set_reserved dev_line (reserved_registered dev_line)
  /\ [c_kasformat "foo"; c_rtdm_dev_register MapperEndpoint;
      c_rtdm_event_init; c_rtdm_irq_request 7;
      c_rtdm_dev_register ControlEndpoint]
     = mapper_calls dev_line (used_regions (mem_regions dev_line))
       ++ [c_rtdm_event_init] ++ irq_calls dev_line
       ++ [c_rtdm_dev_register ControlEndpoint].
Proof.
  pose proof (register_success_state (abi := sample_abi) kernel_ok dev_line dev_registered
                [c_kasformat "foo"; c_rtdm_dev_register MapperEndpoint;
                 c_rtdm_event_init; c_rtdm_irq_request 7;
                 c_rtdm_dev_register ControlEndpoint] eq_refl)
    as (H1 & H2 & _).
  split; [exact H1|exact H2].
Defined.

(** X3 at work: [dev_line] registered, then unregistered. *)
Lemma register_then_unregister_witness :
  udd_unregister_device kernel_ok dev_registered 100 =
    (0, dev_registered,
     [c_rtdm_event_destroy; c_rtdm_irq_free;
      c_rtdm_dev_unregister MapperEndpoint 100;
      c_kfree (Some "foo,mapper"%string);
      c_rtdm_dev_unregister ControlEndpoint 100]).
Proof.
  exact (proj1 (register_then_unregister (abi := sample_abi) kernel_ok kernel_ok dev_line
                  dev_registered
                  [c_kasformat "foo"; c_rtdm_dev_register MapperEndpoint;
                   c_rtdm_event_init; c_rtdm_irq_request 7;
                   c_rtdm_dev_register ControlEndpoint]
                  100 eq_refl eq_refl)).
Defined.

(** X4 at work: no memory for the mapper's name; then no room for the
    mapper endpoint. *)
Lemma register_mapper_failure_witness :
  udd_register_device kernel_nomem dev_line =
    (- ENOMEM,
     set_reserved dev_line (mk_reserved 1 None 0 (mk_signotify 0 0)),
     [c_kasformat "foo"])
  /\ udd_register_device kernel_mapper_busy dev_line =
    (- EBUSY,
     set_reserved dev_line
       (mk_reserved 1 (Some "foo,mapper"%string) 0 (mk_signotify 0 0)),
     [c_kasformat "foo"; c_rtdm_dev_register MapperEndpoint]).
Proof.
  split.
  - apply (proj1 (register_mapper_failure (abi := sample_abi) kernel_nomem dev_line
                    eq_refl eq_refl eq_refl eq_refl)).
    reflexivity.
  - apply (proj2 (register_mapper_failure (abi := sample_abi) kernel_mapper_busy dev_line
                    eq_refl eq_refl eq_refl eq_refl)).
    + reflexivity.
    + vm_compute. discriminate.
Defined.

(** X5 at work: three interrupts on [dev_live]. *)
Lemma notify_events_count_witness :
  snd (notify_events kernel_ok 3 dev_live)
    = [c_rtdm_event_signal; c_rtdm_event_signal; c_rtdm_event_signal].
Proof.
  apply (proj2 (notify_events_count kernel_ok 3 dev_live)).
  vm_compute. discriminate.
Defined.

(** X6 at work: [dev_line] is registered and opened; the first read blocks
    before any interrupt and delivers 2 after two. *)
Lemma first_read_after_events_witness :
  udd_read_rt kernel_ok dev_registered (mk_context 0) sizeof_u32 []
    = Blocked [c_rtdm_event_wait]
  /\ udd_read_rt kernel_ok (fst (notify_events kernel_ok 2 dev_registered))
       (mk_context 0) sizeof_u32 []
    = Returned (elvis (rtdm_copy_to_user kernel_ok 2) sizeof_u32,
                fst (notify_events kernel_ok 2 dev_registered),
                mk_context 2, [c_rtdm_copy_to_user 2]).
Proof.
  apply (first_read_after_events (abi := sample_abi) kernel_ok dev_line dev_registered
           [c_kasformat "foo"; c_rtdm_dev_register MapperEndpoint;
            c_rtdm_event_init; c_rtdm_irq_request 7;
            c_rtdm_dev_register ControlEndpoint] []
           (mk_context 99) (mk_context 0) 0 2 [] eq_refl).
  - vm_compute. discriminate.
  - reflexivity.
  - split; reflexivity.
Defined.

(** X7 at work: a handle at count 0 reads 3 from [dev_live], and blocks
    in its next read. *)
Lemma read_then_read_blocks_witness :
  event_count (mk_context 3) = to_u32 (ur_event (reserved dev_live))
  /\ In (c_rtdm_copy_to_user (event_count (mk_context 3)))
        [c_rtdm_copy_to_user 3]
  /\ udd_read_rt kernel_ok dev_live (mk_context 3) sizeof_u32 []
     = Blocked (repeat c_rtdm_event_wait (List.length (@nil wakeup))
                ++ [c_rtdm_event_wait]).
Proof.
  apply (read_then_read_blocks (abi := sample_abi) kernel_ok dev_live dev_live (mk_context 0)
           (mk_context 3) [] [] [c_rtdm_copy_to_user 3]
           (Forall_nil _) eq_refl (Forall_nil _)).
Defined.

(** X8 at work: a non-zero word written to [dev_live]. *)
Lemma write_spec_witness :
  udd_write_rt kernel_ok dev_live (mk_context 3) sizeof_u32 (0, 1)
    = (sizeof_u32, dev_live, mk_context 3, [c_ipipe_post_work_root 7 1])
  /\ root_stage
       (snd (udd_write_rt kernel_ok dev_live (mk_context 3) sizeof_u32 (0, 1)))
     = [r_ipipe_enable_irq 7].
Proof.
  apply (proj2 (proj2 (proj2 (write_spec (abi := sample_abi) kernel_ok dev_live (mk_context 3)
                                sizeof_u32 (0, 1)))
                        eq_refl eq_refl eq_refl)).
  vm_compute. discriminate.
Defined.

(** X9 at work: the first interrupt on [dev_line] once registered. *)
Lemma irq_handler_after_register_witness :
  exists r,
    ops_interrupt (ops dev_line) = Some r /\
    udd_irq_handler kernel_ok dev_registered =
      Some (r,
            (if r =? RTDM_IRQ_HANDLED
             then set_reserved dev_registered
                    (set_event (reserved dev_registered) 1)
             else dev_registered),
            c_ops_interrupt ::
            (if r =? RTDM_IRQ_HANDLED then [c_rtdm_event_signal] else [])).
Proof.
  apply (irq_handler_after_register (abi := sample_abi) kernel_ok dev_line dev_registered
           [c_kasformat "foo"; c_rtdm_dev_register MapperEndpoint;
            c_rtdm_event_init; c_rtdm_irq_request 7;
            c_rtdm_dev_register ControlEndpoint] eq_refl).
  vm_compute. discriminate.
Defined.

(** X10 at work: minor 0 of [dev_live] opens. *)
Lemma mapper_open_spec_witness :
  mapper_open dev_live 0 = 0.
Proof.
  apply (proj2 (proj1 (proj2 (mapper_open_spec (abi := sample_abi) kernel_ok dev_live 0)))).
  split.
  - split; [apply Z.le_refl|reflexivity].
  - exists region_regs. split; reflexivity.
Defined.

(** X11 at work: slot 1 of [dev_odd] has type 9. *)
Lemma unknown_type_never_maps_witness :
  (forall ur, check_memregion ur region_odd
              = (0, set_nr_maps ur (ur_nr_maps ur + 1)))
  /\ mapper_open dev_odd 1 = 0
  /\ mapper_mmap kernel_ok dev_odd 1 (mk_vma 0 4096) = Some (- EINVAL, []).
Proof.
  apply (unknown_type_never_maps (abi := sample_abi) kernel_ok dev_odd 1 region_odd
           (mk_vma 0 4096) eq_refl);
    try reflexivity; try (vm_compute; discriminate).
  split; vm_compute; [discriminate|reflexivity].
Defined.

(** X13 at work: pid 5 and signal 40 are stored on [dev_target], whose
    count is 41; the next interrupt queues signal 40 to pid 5 with 42. *)
Lemma irqsig_then_notify_witness :
  udd_notify_event kernel_ok
      (set_reserved dev_line (mk_reserved 1 None 41 (mk_signotify 5 40)))
    = (set_reserved dev_line (mk_reserved 1 None 42 (mk_signotify 5 40)),
       [c_rtdm_event_signal; c_cobalt_sigqueue 5 40 42]).
Proof.
  apply (irqsig_then_notify (abi := sample_abi) kernel_ok dev_target
           (set_reserved dev_line (mk_reserved 1 None 41 (mk_signotify 5 40)))
           (mk_context 41) (mk_context 41)
           (mk_user_arg 0 (mk_signotify 5 40)) [] eq_refl).
  - reflexivity.
  - reflexivity.
Defined.

(** X14 at work: a handle at count 3 on [dev_live] reads 5 after two
    interrupts. *)
Lemma read_after_events_witness :
  udd_read_rt kernel_ok (fst (notify_events kernel_ok 2 dev_live))
      (mk_context 3) sizeof_u32 []
    = Returned (4, fst (notify_events kernel_ok 2 dev_live), mk_context 5,
                [c_rtdm_copy_to_user 5]).
Proof.
  apply (proj1 (read_after_events (abi := sample_abi) kernel_ok dev_live (mk_context 3) 2 []
                  ltac:(vm_compute; discriminate) eq_refl)).
  vm_compute. discriminate.
Defined.
